(** * VerticaPy: column lineage of [verticapy/core/vdataframe/math.py]

    A shallow embedding of the column-transformation code of
    [vDFMATH] and [vDCMATH] (file [core/vdataframe/math.py]): the
    per-column chain of transformation steps, the catalog of cached
    statistics, the frame-level history log and exclude list, and the
    operations [vDCMATH.apply], [vDCMATH.apply_fun], [vDCMATH.get_len]
    and [vDFMATH.analytic] that mutate them.

    Python objects that are mutated in place and may be shared (the
    catalog dictionaries) live in an explicit store; exceptions are
    modelled by a state-and-error monad in which a raised exception keeps
    whatever mutation happened before it, as in Python. *)

From Stdlib Require Import String Ascii ZArith List Lia Bool.
From Stdlib Require DecimalString.
From stdpp Require Import base option list gmap strings.

Local Open Scope string_scope.
Local Open Scope Z_scope.

(** ** Python string primitives *)

Module PyStr.

(** The double-quote character, and a line feed. *)
Definition dq : string := String (ascii_of_nat 34) EmptyString.
Definition nl : string := String (ascii_of_nat 10) EmptyString.

(** [n] blanks: the indentation inside the source's triple-quoted strings. *)
Fixpoint sp (n : nat) : string :=
  match n with
  | O => EmptyString
  | S k => String " " (sp k)
  end.

(** [sub in s] on Python strings. *)
Fixpoint py_in (sub s : string) : bool :=
  if String.prefix sub s then true
  else match s with
       | EmptyString => false
       | String _ s' => py_in sub s'
       end.

(** [s.replace(old, new)] for a non-empty [old]: occurrences are replaced
    from left to right and do not overlap. [skip] counts the characters of
    the occurrence just replaced that are still to be dropped. *)
Fixpoint replace_from (old new s : string) (skip : nat) : string :=
  match s with
  | EmptyString => EmptyString
  | String c s' =>
      match skip with
      | S k => replace_from old new s' k
      | O =>
          if String.prefix old s
          then new +:+ replace_from old new s' (Nat.pred (String.length old))
          else String c (replace_from old new s' O)
      end
  end.

Definition py_replace (old new s : string) : string :=
  replace_from old new s O.

(** [s.count(sub)] for a non-empty [sub]: non-overlapping occurrences. *)
Fixpoint count_from (sub s : string) (skip : nat) : nat :=
  match s with
  | EmptyString => O
  | String c s' =>
      match skip with
      | S k => count_from sub s' k
      | O =>
          if String.prefix sub s
          then S (count_from sub s' (Nat.pred (String.length sub)))
          else count_from sub s' O
      end
  end.

Definition py_count (sub s : string) : nat := count_from sub s O.

(** [s.upper()] and [s.lower()] on ASCII letters. *)
Definition upper_char (c : ascii) : ascii :=
  let n := nat_of_ascii c in
  if (Nat.leb 97 n && Nat.leb n 122)%bool then ascii_of_nat (n - 32) else c.

Definition lower_char (c : ascii) : ascii :=
  let n := nat_of_ascii c in
  if (Nat.leb 65 n && Nat.leb n 90)%bool then ascii_of_nat (n + 32) else c.

Fixpoint py_upper (s : string) : string :=
  match s with
  | EmptyString => EmptyString
  | String c s' => String (upper_char c) (py_upper s')
  end.

Fixpoint py_lower (s : string) : string :=
  match s with
  | EmptyString => EmptyString
  | String c s' => String (lower_char c) (py_lower s')
  end.

(** [s[-1]] when [s] is not empty. *)
Fixpoint last_char (s : string) : option ascii :=
  match s with
  | EmptyString => None
  | String c EmptyString => Some c
  | String _ s' => last_char s'
  end.

(** [s[0:-1]]. *)
Fixpoint drop_last (s : string) : string :=
  match s with
  | EmptyString => EmptyString
  | String _ EmptyString => EmptyString
  | String c s' => String c (drop_last s')
  end.

(** [s[1:-1]]. *)
Definition strip_ends (s : string) : string :=
  match s with
  | EmptyString => EmptyString
  | String _ s' => drop_last s'
  end.

(** [str(n)] for an integer. *)
Definition str_int (n : Z) : string :=
  DecimalString.NilZero.string_of_int (Z.to_int n).

(** [sep.join(l)]. *)
Fixpoint py_join (sep : string) (l : list string) : string :=
  match l with
  | [] => EmptyString
  | [x] => x
  | x :: rest => x +:+ sep +:+ py_join sep rest
  end.

(** Truth value of a string: [if s:] is [s != ""]. *)
Definition truthy (s : string) : bool :=
  match s with
  | EmptyString => false
  | _ => true
  end.

(** [x in (a, b, ...)] on strings. *)
Definition in_tuple (x : string) (l : list string) : bool :=
  existsb (String.eqb x) l.

End PyStr.
Import PyStr.

Example py_replace_placeholder :
  py_replace "{}" (dq +:+ "x" +:+ dq) "POWER({}, 2) + {}"
  = "POWER(" +:+ dq +:+ "x" +:+ dq +:+ ", 2) + " +:+ dq +:+ "x" +:+ dq.
Proof. reflexivity. Qed.

Example py_count_placeholder : py_count "{}" "{} + {{}}" = 2%nat.
Proof. reflexivity. Qed.

Example py_upper_len : py_upper "Lentgh_1" = "LENTGH_1".
Proof. reflexivity. Qed.

Example str_int_ex : str_int 1042 = "1042".
Proof. reflexivity. Qed.

(** ** Exceptions and the state-and-error monad *)

(** A raised Python exception: its class name and [str(e)]. *)
Record exn := Exn { exn_class : string; exn_msg : string }.

(** ** Data model *)

(** One transformation step: [(expression template, type, category)]. *)
Definition step : Type := string * string * string.

Definition step_func (s : step) : string := s.1.1.
Definition step_ctype (s : step) : string := s.1.2.
Definition step_category (s : step) : string := s.2.

(** A [vColumn] object: its chain [transformations] and its [catalog]
    attribute. The catalog is a Python dict, a mutable object that two
    columns may share, so the attribute holds the address of the dict in
    the frame's store [dicts]. The column's alias is its key in
    [vcolumns]. *)
Record vColumn := mk_vColumn {
  transformations : list step;
  catalog : nat
}.

(** The parent [vDataFrame]: [_VERTICAPY_VARIABLES_["columns"]],
    [_VERTICAPY_VARIABLES_["exclude_columns"]],
    [_VERTICAPY_VARIABLES_["history"]], the column objects by quoted
    alias, and the store of catalog dicts (statistic name to cached
    value); a dict's address is its index in [dicts]. *)
Record vDataFrame := mk_vDataFrame {
  columns : list string;
  exclude_columns : list string;
  history : list string;
  vcolumns : gmap string vColumn;
  dicts : list (gmap string string)
}.

Definition set_columns (l : list string) (p : vDataFrame) : vDataFrame :=
  mk_vDataFrame l (exclude_columns p) (history p) (vcolumns p) (dicts p).
Definition set_exclude_columns (l : list string) (p : vDataFrame) : vDataFrame :=
  mk_vDataFrame (columns p) l (history p) (vcolumns p) (dicts p).
Definition set_history (l : list string) (p : vDataFrame) : vDataFrame :=
  mk_vDataFrame (columns p) (exclude_columns p) l (vcolumns p) (dicts p).
Definition set_vcolumns (m : gmap string vColumn) (p : vDataFrame) : vDataFrame :=
  mk_vDataFrame (columns p) (exclude_columns p) (history p) m (dicts p).
Definition set_dicts (d : list (gmap string string)) (p : vDataFrame) : vDataFrame :=
  mk_vDataFrame (columns p) (exclude_columns p) (history p) (vcolumns p) d.

(** [len(column.transformations)] of the column [c], when it exists. *)
Definition depth (p : vDataFrame) (c : string) : option nat :=
  (fun col => length (transformations col)) <$> vcolumns p !! c.

(** A computation on the frame: it returns a value or raises, and in both
    cases leaves the frame as mutated so far. *)
Definition M (A : Type) : Type := vDataFrame -> (exn + A) * vDataFrame.

Definition ret {A} (a : A) : M A := fun p => (inr a, p).
Definition raise {A} (e : exn) : M A := fun p => (inl e, p).
Definition bind {A B} (m : M A) (k : A -> M B) : M B :=
  fun p => match m p with
           | (inr a, p') => k a p'
           | (inl e, p') => (inl e, p')
           end.
(** [try: body except: handler]. *)
Definition try_except {A} (body : M A) (handler : exn -> M A) : M A :=
  fun p => match body p with
           | (inr a, p') => (inr a, p')
           | (inl e, p') => handler e p'
           end.
Definition get : M vDataFrame := fun p => (inr p, p).
Definition modify (f : vDataFrame -> vDataFrame) : M unit := fun p => (inr tt, f p).
(** A pure call that may raise. *)
Definition lift {A} (r : exn + A) : M A := fun p => (r, p).

Declare Scope py_scope.
Delimit Scope py_scope with py.
Notation "'let!' x ':=' c 'in' k" := (bind c (fun x => k))
  (at level 10, x name, c at level 100, k at level 200) : py_scope.
Notation "c ;; k" := (bind c (fun _ => k))
  (at level 100, k at level 200, right associativity) : py_scope.
Local Open Scope py_scope.

(** [for k in range(n): body]. A negative [n] gives an empty range. *)
Fixpoint for_range (n : nat) (body : M unit) : M unit :=
  match n with
  | O => ret tt
  | S k => body ;; for_range k body
  end.

(** ** Names bound in the module

    The names that the module's import statements (lines 17 to 26) and
    class statements bind. A global name outside this list and outside
    Python's builtins raises [NameError] when it is evaluated. *)
Definition module_globals : list string :=
  [ "Union"; "Literal"; "random"; "quote_ident"; "verticapy_agg_name";
    "MissingColumn"; "ParameterError"; "QueryError"; "save_verticapy_logs";
    "str_sql"; "get_data_types"; "to_category"; "vDataFrameSQL";
    "vDFMATH"; "vDCMATH" ].

Definition resolve_global (name : string) : M unit :=
  if in_tuple name module_globals then ret tt
  else raise (Exn "NameError" ("name '" +:+ name +:+ "' is not defined")).

(** ** Helpers of the repository that the file calls

    [quote_ident], [vDataFrame.get_columns], [vDataFrame.__getitem__],
    [vColumn.ctype], [vColumn.category], [vColumn.add_copy],
    [vDataFrame.__update_catalog__] and [vDataFrame.__add_to_history__]
    are defined in other files of the repository. *)

Definition is_quoted (s : string) : bool :=
  (Nat.leb 2 (String.length s)
   && String.prefix dq s
   && match last_char s with
      | Some c => Ascii.eqb c (ascii_of_nat 34)
      | None => false
      end)%bool.

(** Modelled from the spec: [quote_ident] is defined in another file.
    Section 4.1: it wraps the name in the engine's quoting convention,
    doubling any embedded quote character, and does not quote again a name
    that is already quoted. *)
Definition quote_ident (name : string) : string :=
  let inner := if is_quoted name then strip_ends name else name in
  dq +:+ py_replace dq (dq +:+ dq) inner +:+ dq.

(** Modelled from the spec: [get_columns] is defined in another file.
    Section 4.4, [activeColumns(includeExcluded=false)]: the aliases in
    insertion order, without those of the exclude list. *)
Definition get_columns (p : vDataFrame) : list string :=
  List.filter (fun c => negb (in_tuple c (exclude_columns p))) (columns p).

(** Modelled from the spec: [__getitem__] is defined in another file.
    Section 3: identifiers are stored and compared in canonical quoted
    form; section 7: a reference to an alias that is absent is an error.
    [parent[name]] returns the column object, here its key. *)
Definition getitem (name : string) : M string :=
  fun p =>
    match vcolumns p !! quote_ident name with
    | Some _ => (inr (quote_ident name), p)
    | None =>
        (inl (Exn "MissingColumn"
                  ("The Virtual Column '" +:+ name +:+ "' doesn't exist")), p)
    end.

(** Reading the attributes of the column object [self]. *)
Definition column_object (self : string) : M vColumn :=
  fun p =>
    match vcolumns p !! self with
    | Some c => (inr c, p)
    | None => (inl (Exn "AttributeError" self), p)
    end.

Definition transformations_of (self : string) : M (list step) :=
  let! c := column_object self in ret (transformations c).

Definition catalog_of (self : string) : M nat :=
  let! c := column_object self in ret (catalog c).

(** Modelled from the spec: [ctype] and [category] are defined in another
    file of the repository. Sections 3 and 4.4: the type and category of a column are those
    of the last step of its chain; Python's [transformations[-1]] raises
    [IndexError] on an empty list. *)
Definition last_step (self : string) : M step :=
  let! t := transformations_of self in
  match last t with
  | Some s => ret s
  | None => raise (Exn "IndexError" "list index out of range")
  end.

Definition ctype (self : string) : M string :=
  let! s := last_step self in ret (step_ctype s).

Definition category (self : string) : M string :=
  let! s := last_step self in ret (step_category s).

(** [obj.transformations += [s]] on the column object [self]. *)
Definition append_step (self : string) (s : step) : M unit :=
  let! c := column_object self in
  modify (fun p =>
    set_vcolumns
      (<[self := mk_vColumn (transformations c ++ [s]) (catalog c)]> (vcolumns p)) p).

(** [obj.catalog = d] where [d] is the dict at address [a]. *)
Definition set_catalog (self : string) (a : nat) : M unit :=
  let! c := column_object self in
  modify (fun p =>
    set_vcolumns (<[self := mk_vColumn (transformations c) a]> (vcolumns p)) p).

(** A new dict object with the content [d]: its address. *)
Definition new_dict (d : gmap string string) : M nat :=
  fun p => (inr (length (dicts p)), set_dicts (dicts p ++ [d]) p).

(** [setattr(parent, key, column)] and [columns += [key]]: a new column
    object enters the frame. *)
Definition register_column (key : string) (col : vColumn) : M unit :=
  modify (fun p =>
    set_columns (columns p ++ [key])
      (set_vcolumns (<[key := col]> (vcolumns p)) p)).

(** Modelled from the spec: [add_copy] is defined in another file. The
    docstring of [apply] says that a copy is created using the input name;
    section 4.3, [copy()]: the copy has a copy of the chain and of the
    cache mapping; section 3: an identifier names one column of a frame,
    so a name in use is refused, before anything is changed. The new
    column is added at the end of the column list. *)
Definition add_copy (self name : string) : M unit :=
  let! c := column_object self in
  let! p := get in
  let key := quote_ident name in
  match vcolumns p !! key with
  | Some _ =>
      raise (Exn "NameError"
                 ("A vColumn has already the alias " +:+ key +:+ "."))
  | None =>
      let d := default ∅ (dicts p !! catalog c) in
      let! a := new_dict d in
      register_column key (mk_vColumn (transformations c) a)
  end.

(** Modelled from the spec: [__update_catalog__] is defined in another
    file of the repository. Section 4.3, [apply]: all cached statistics of the entry are
    cleared, whatever the transformation; the entry gets an empty mapping
    of its own. *)
Fixpoint update_catalog_erase (cols : list string) : M unit :=
  match cols with
  | [] => ret tt
  | column :: rest =>
      let! k := getitem column in
      let! a := new_dict ∅ in
      set_catalog k a ;;
      update_catalog_erase rest
  end.

(** Modelled from the spec: [__add_to_history__] is defined in another
    file of the repository. Section 3: the history log is an ordered sequence of strings to
    which entries are appended. *)
Definition add_to_history (msg : string) : M unit :=
  modify (fun p => set_history (history p ++ [msg]) p).



(** ** External collaborators

    What the code calls outside the repository's column bookkeeping: the
    SQL text of the current relation ([__genSQL__]), the database probe
    that types an expression ([get_data_types], which raises when the
    query fails), the classification of a type into a category
    ([to_category]), Python's regular-expression search ([re.search], true
    when there is a match), and for [analytic]: the normalisation of
    aggregate names ([verticapy_agg_name] with [method="vertica"]), of
    column names ([format_colnames], called on two lists at once, which
    raises on a name that matches no column), the
    ORDER BY text ([__get_sort_syntax__]), the rendering of
    [float(s) / 100] (nothing when [s] is no number), [vDataFrame.eval],
    and the values that [gen_name] and [OPTIONS["print_info"]] would have
    if these names were bound. *)
Record External := mk_External {
  genSQL : vDataFrame -> string;
  get_data_types : string -> string -> exn + string;
  to_category : string -> string;
  re_search : string -> string -> bool;
  verticapy_agg_name : string -> string;
  format_colnames :
    vDataFrame -> list string -> list string -> exn + (list string * list string);
  get_sort_syntax : list string -> string;
  float_div_100 : string -> option string;
  vdf_eval : string -> string -> M unit;
  gen_name : list string -> string;
  print_info : bool
}.

(** A number passed to [add], [sub] or [div] ([Union[int, float]]): an
    integer, or a float given by its rendering [str(x)] and by whether it
    equals zero. *)
Inductive number :=
| Int (z : Z)
| Float (repr : string) (is_zero : bool).

Definition str_number (x : number) : string :=
  match x with
  | Int z => str_int z
  | Float repr _ => repr
  end.

Definition number_is_zero (x : number) : bool :=
  match x with
  | Int z => Z.eqb z 0
  | Float _ zero => zero
  end.

(** What the one-line transformations and the frame-level methods ask
    about the columns: whether a column is a date ([vColumn.isdate]) or a
    boolean ([vColumn.isbool]), the list of the numerical columns
    ([vDataFrame.numcol]), and the normalisation of a list of names or of
    the keys of a dictionary ([format_colnames] on one argument, which
    raises on a name that matches no column). *)
Record Inspect := mk_Inspect {
  isdate : vDataFrame -> string -> bool;
  isbool : vDataFrame -> string -> bool;
  numcol : vDataFrame -> list string;
  format_list : vDataFrame -> list string -> exn + list string;
  format_dict : vDataFrame -> list (string * string) -> exn + list (string * string)
}.

(** ** Class [vDCMATH]: the methods of a column *)

Module vDCMATH.
Section Column.

Context (ext : External).
Context (insp : Inspect).

(** *** [vDCMATH.apply] *)

(** The probe query of lines 631 to 636. *)
Definition probe_query (p : vDataFrame) (func_apply self : string) : string :=
  nl +:+ sp 20 +:+ "SELECT " +:+
  nl +:+ sp 24 +:+ func_apply +:+ " AS apply_test_feature " +:+
  nl +:+ sp 20 +:+ "FROM " +:+ genSQL ext p +:+ " " +:+
  nl +:+ sp 20 +:+ "WHERE " +:+ self +:+ " IS NOT NULL " +:+
  nl +:+ sp 20 +:+ "LIMIT 0".

(** The test of lines 644 to 646:
    [(quote_ident(column) in func) or (re.search(re.compile(...), func))].
    The right operand is evaluated only when the left one is false, and
    evaluating it starts by looking up the global name [re]. *)
Definition references (column func : string) : M bool :=
  let column_str := py_replace dq EmptyString column in
  if py_in (quote_ident column) func then ret true
  else
    resolve_global "re" ;;
    ret (re_search ext ("\b" +:+ column_str +:+ "\b") func).

(** The loop of lines 641 to 651. The bare [except: pass] leaves
    [max_floor] as it was. *)
Fixpoint max_floor_loop (func : string) (all_cols : list string)
    (max_floor : Z) : M Z :=
  match all_cols with
  | [] => ret max_floor
  | column :: rest =>
      let! max_floor' :=
        try_except
          (let! dep := references column func in
           if dep : bool then
             let! k := getitem column in
             let! t := transformations_of k in
             ret (Z.max (Z.of_nat (length t)) max_floor)
           else ret max_floor)
          (fun _ => ret max_floor) in
      max_floor_loop func rest max_floor'
  end.

(** The identity step added by the padding loops. *)
Definition identity_step (self : string) : M step :=
  let! ct := ctype self in
  let! cat := category self in
  ret ("{}", ct, cat).

Definition history_entry (alias_sql_repr func_apply : string) : string :=
  "[Apply]: The vColumn '" +:+ alias_sql_repr +:+ "' was " +:+
  "transformed with the func 'x -> " +:+ func_apply +:+ "'.".

Definition query_error (e : exn) (func_apply alias_sql_repr : string) : exn :=
  Exn "QueryError"
      (exn_msg e +:+ nl +:+ "Error when applying the func 'x -> " +:+ func_apply
       +:+ "' " +:+ "to '" +:+ alias_sql_repr +:+ "'").

(** The [try] block up to the update of the chain and of the catalog,
    lines 630 to 666. *)
Definition apply_update (self func copy_name func_apply : string) : M unit :=
  let! p := get in
  let! ctype' := lift (get_data_types ext (probe_query p func_apply self)
                                      "apply_test_feature") in
  let category' := to_category ext ctype' in
  let! p := get in
  let all_cols := get_columns p in
  let! max_floor := max_floor_loop func all_cols 0 in
  let! t := transformations_of self in
  let max_floor := max_floor - Z.of_nat (length t) in
  (if truthy copy_name then
     add_copy self copy_name ;;
     for_range (Z.to_nat max_floor)
       (let! k := getitem copy_name in
        let! s := identity_step self in
        append_step k s) ;;
     (let! k := getitem copy_name in
      append_step k (func, ctype', category')) ;;
     (let! k := getitem copy_name in
      let! a := catalog_of self in
      set_catalog k a)
   else
     for_range (Z.to_nat max_floor)
       (let! s := identity_step self in
        append_step self s) ;;
     append_step self (func, ctype', category') ;;
     update_catalog_erase [self]).

(** The body of the [try] block, lines 630 to 671. *)
Definition apply_body (self func copy_name func_apply alias_sql_repr : string)
    : M unit :=
  apply_update self func copy_name func_apply ;;
  add_to_history (history_entry alias_sql_repr func_apply).

(** [vDCMATH.apply(self, func, copy_name)], lines 625 to 676. [self] is a
    column object of the frame, given by its alias. *)
Definition apply (self func copy_name : string) : M unit :=
  let func_apply := py_replace "{}" self func in
  let alias_sql_repr := py_replace dq EmptyString self in
  try_except
    (apply_body self func copy_name func_apply alias_sql_repr)
    (fun e => raise (query_error e func_apply alias_sql_repr)).

(** *** [vDCMATH.apply_fun] *)

(** The second argument [x] of [apply_fun]: a string, or a number given by
    its rendering [str(x)]. *)
Inductive arg :=
| ArgStr (s : string)
| ArgNum (s : string).

Definition str_arg (x : arg) : string :=
  match x with ArgStr s => s | ArgNum s => s end.

(** Lines 772 to 787: the SQL function name. *)
Definition apply_fun_name (cat func : string) : string :=
  let func := if String.eqb func "mean" then "avg"
              else if String.eqb func "length" then "len"
              else func in
  if String.eqb func "len" then
    if String.eqb cat "vmap" then "MAPSIZE"
    else if String.eqb cat "complex" then "APPLY_COUNT_ELEMENTS"
    else "LENTGH"
  else if in_tuple func ["max"; "min"; "sum"; "avg"; "count"] then
    "APPLY_" +:+ func
  else if String.eqb func "dim" then "ARRAY_DIMS"
  else func.

(** Lines 788 to 802: the expression template. In the last case Python
    leaves [expr] unbound when [func] is none of the names tested, which
    cannot happen after the first two tests. *)
Definition apply_fun_expr (cat func : string) (x : arg) : string :=
  let func := apply_fun_name cat func in
  if negb (in_tuple func ["log"; "mod"; "pow"; "round"; "contain"; "find"]) then
    py_upper func +:+ "({})"
  else if in_tuple func ["log"; "mod"; "pow"; "round"] then
    py_upper func +:+ "({}, " +:+ str_arg x +:+ ")"
  else
    let f := if String.eqb func "contain" then
               if String.eqb cat "vmap" then "MAPCONTAINSVALUE" else "CONTAINS"
             else "ARRAY_FIND" in
    let x := match x with
             | ArgStr s => "'" +:+ py_replace "'" "''" s +:+ "'"
             | ArgNum s => s
             end in
    f +:+ "({}, " +:+ x +:+ ")".

Definition apply_fun (self func : string) (x : arg) : M unit :=
  let! cat := category self in
  apply self (apply_fun_expr cat func x) EmptyString.

(** *** Other one-line transformations *)

Definition abs (self : string) : M unit := apply self "ABS({})" EmptyString.

Definition round (self n : string) : M unit :=
  apply self ("ROUND({}, " +:+ n +:+ ")") EmptyString.

(** [vDCMATH.add], lines 595 to 598. *)
Definition add (self : string) (x : number) : M unit :=
  let! p := get in
  if isdate insp p self then
    apply self ("TIMESTAMPADD(SECOND, " +:+ str_number x +:+ ", {})") EmptyString
  else
    apply self ("{} + (" +:+ str_number x +:+ ")") EmptyString.

(** [vDCMATH.sub], lines 955 to 958. *)
Definition sub (self : string) (x : number) : M unit :=
  let! p := get in
  if isdate insp p self then
    apply self ("TIMESTAMPADD(SECOND, -(" +:+ str_number x +:+ "), {})") EmptyString
  else
    apply self ("{} - (" +:+ str_number x +:+ ")") EmptyString.

(** [vDCMATH.div], lines 854 and 855. The [assert] raises
    [AssertionError] with the text of its second operand. *)
Definition div (self : string) (x : number) : M unit :=
  if number_is_zero x then
    raise (Exn "AssertionError" "Division by 0 is forbidden !")
  else
    apply self ("{} / (" +:+ str_number x +:+ ")") EmptyString.

(** [vDCMATH.slice], lines 929 to 933. *)
Definition slice (self : string) (length : Z) (unit : string) (start : bool)
    : M Datatypes.unit :=
  let start_or_end := if start then "START" else "END" in
  let unit := py_upper unit in
  apply self
    ("TIME_SLICE({}, " +:+ str_int length +:+ ", '" +:+ unit +:+ "', '"
     +:+ start_or_end +:+ "')") EmptyString.

(** *** [vDCMATH.get_len] *)

(** Lines 866 to 872: the SQL function name. *)
Definition get_len_fun (cat : string) : string :=
  if String.eqb cat "vmap" then "MAPSIZE"
  else if String.eqb cat "complex" then "APPLY_COUNT_ELEMENTS"
  else "LENGTH".

(** Lines 873 to 879: the selected element, the new alias and the query. *)
Definition get_len_elem (cat self : string) : string :=
  get_len_fun cat +:+ "(" +:+ self +:+ ")".

Definition get_len_alias (self : string) : string :=
  quote_ident (strip_ends self +:+ ".length").

Definition get_len_query (p : vDataFrame) (cat self : string) : string :=
  nl +:+ sp 12 +:+ "(SELECT " +:+
  nl +:+ sp 16 +:+ get_len_elem cat self +:+ " AS " +:+ get_len_alias self +:+ " " +:+
  nl +:+ sp 12 +:+ "FROM " +:+ genSQL ext p +:+ ") VERTICAPY_SUBTABLE".

(** [vDCMATH.get_len], lines 866 to 882. The method hands the query to
    [vDataFrameSQL], reads the column [new_alias] of the frame built on it
    and sets its attribute [init_transf]: the result is given by the
    query, the alias and that attribute, computed from the attribute
    [init_transf] of the column. The frame itself is not changed. *)
Definition get_len (self init_transf : string) : M (string * string * string) :=
  let! cat := category self in
  let fun_ := get_len_fun cat in
  let init_transf := fun_ +:+ "(" +:+ init_transf +:+ ")" in
  let new_alias := get_len_alias self in
  let! p := get in
  ret (get_len_query p cat self, new_alias, init_transf).

End Column.
End vDCMATH.

(** ** Class [vDFMATH]: the methods of a frame *)

Module vDFMATH.
Section Frame.

Context (ext : External).
Context (insp : Inspect).

(** *** [vDFMATH.analytic] *)

(** [columns[0]] and [columns[1]]. *)
Definition item (columns : list string) (i : nat) : M string :=
  match columns !! i with
  | Some c => ret c
  | None => raise (Exn "IndexError" "list index out of range")
  end.

(** [raise FunctionError(...)]: the name [FunctionError] is looked up first. *)
Definition raise_FunctionError {A} (msg : string) : M A :=
  resolve_global "FunctionError" ;; raise (Exn "FunctionError" msg).

(** The names of the helper columns, lines 236 to 240. *)
Definition helper_name (column0 kind : string) (random_nb : Z) : string :=
  py_replace dq EmptyString column0 +:+ "_" +:+ kind +:+ "_" +:+ str_int random_nb.

Definition kurtosis_expr (c0 mean_name std_name count_name by_ : string) : string :=
  "AVG(POWER((" +:+ c0 +:+ " - " +:+ mean_name +:+ ") " +:+
  nl +:+ sp 26 +:+ "/ NULLIFZERO(" +:+ std_name +:+ "), 4)) OVER (" +:+ by_ +:+ ") " +:+
  nl +:+ sp 26 +:+ "* POWER(" +:+ count_name +:+ ", 2) " +:+
  nl +:+ sp 26 +:+ "* (" +:+ count_name +:+ " + 1) " +:+
  nl +:+ sp 26 +:+ "/ NULLIFZERO((" +:+ count_name +:+ " - 1) " +:+
  nl +:+ sp 26 +:+ "* (" +:+ count_name +:+ " - 2) " +:+
  nl +:+ sp 26 +:+ "* (" +:+ count_name +:+ " - 3)) " +:+
  nl +:+ sp 26 +:+ "- 3 * POWER(" +:+ count_name +:+ " - 1, 2) " +:+
  nl +:+ sp 26 +:+ "/ NULLIFZERO((" +:+ count_name +:+ " - 2) " +:+
  nl +:+ sp 26 +:+ "* (" +:+ count_name +:+ " - 3))".

Definition skewness_expr (c0 mean_name std_name count_name by_ : string) : string :=
  "AVG(POWER((" +:+ c0 +:+ " - " +:+ mean_name +:+ ") " +:+
  nl +:+ sp 25 +:+ "/ NULLIFZERO(" +:+ std_name +:+ "), 3)) OVER (" +:+ by_ +:+ ") " +:+
  nl +:+ sp 25 +:+ "* POWER(" +:+ count_name +:+ ", 2) " +:+
  nl +:+ sp 25 +:+ "/ NULLIFZERO((" +:+ count_name +:+ " - 1) " +:+
  nl +:+ sp 25 +:+ "* (" +:+ count_name +:+ " - 2))".

Definition jb_expr (c0 mean_name std_name count_name by_ : string) : string :=
  count_name +:+ " / 6 * (POWER(AVG(POWER((" +:+ c0 +:+ " " +:+
  nl +:+ sp 26 +:+ "- " +:+ mean_name +:+ ") / NULLIFZERO(" +:+ std_name
     +:+ "), 3)) OVER (" +:+ by_ +:+ ") " +:+
  nl +:+ sp 26 +:+ "* POWER(" +:+ count_name +:+ ", 2) / NULLIFZERO(("
     +:+ count_name +:+ " - 1) " +:+
  nl +:+ sp 26 +:+ "* (" +:+ count_name +:+ " - 2)), 2) + POWER(AVG(POWER(("
     +:+ c0 +:+ " " +:+
  nl +:+ sp 26 +:+ "- " +:+ mean_name +:+ ") / NULLIFZERO(" +:+ std_name
     +:+ "), 4)) OVER (" +:+ by_ +:+ ") " +:+
  nl +:+ sp 26 +:+ "* POWER(" +:+ count_name +:+ ", 2) * (" +:+ count_name
     +:+ " + 1) " +:+
  nl +:+ sp 26 +:+ "/ NULLIFZERO((" +:+ count_name +:+ " - 1) * ("
     +:+ count_name +:+ " - 2) " +:+
  nl +:+ sp 26 +:+ "* (" +:+ count_name +:+ " - 3)) - 3 * POWER("
     +:+ count_name +:+ " - 1, 2) " +:+
  nl +:+ sp 26 +:+ "/ NULLIFZERO((" +:+ count_name +:+ " - 2) * ("
     +:+ count_name +:+ " - 3)), 2) / 4)".

Definition prod_expr (c0 by_ : string) : string :=
  "DECODE(ABS(MOD(SUM(CASE " +:+
  nl +:+ sp 44 +:+ "WHEN " +:+ c0 +:+ " < 0 " +:+
  nl +:+ sp 44 +:+ "THEN 1 ELSE 0 END) " +:+
  nl +:+ sp 39 +:+ "OVER (" +:+ by_ +:+ "), 2)), 0, 1, -1) " +:+
  nl +:+ sp 21 +:+ "* POWER(10, SUM(LOG(ABS(" +:+ c0 +:+ "))) " +:+
  nl +:+ sp 33 +:+ "OVER (" +:+ by_ +:+ "))".

(** Lines 234 to 292: the statistics that need helper columns. *)
Definition analytic_moments (func name : string) (columns : list string)
    (by_ : string) (random_nb : Z) : M unit :=
  let! c0 := item columns 0 in
  let mean_name := helper_name c0 "mean" random_nb in
  let median_name := helper_name c0 "median" random_nb in
  let std_name := helper_name c0 "std" random_nb in
  let count_name := helper_name c0 "count" random_nb in
  (if String.eqb func "mad" then
     vdf_eval ext median_name ("MEDIAN(" +:+ c0 +:+ ") OVER (" +:+ by_ +:+ ")")
   else
     vdf_eval ext mean_name ("AVG(" +:+ c0 +:+ ") OVER (" +:+ by_ +:+ ")")) ;;
  (if negb (in_tuple func ["aad"; "mad"]) then
     vdf_eval ext std_name ("STDDEV(" +:+ c0 +:+ ") OVER (" +:+ by_ +:+ ")") ;;
     vdf_eval ext count_name ("COUNT(" +:+ c0 +:+ ") OVER (" +:+ by_ +:+ ")")
   else ret tt) ;;
  if String.eqb func "kurtosis" then
    vdf_eval ext name (kurtosis_expr c0 mean_name std_name count_name by_)
  else if String.eqb func "skewness" then
    vdf_eval ext name (skewness_expr c0 mean_name std_name count_name by_)
  else if String.eqb func "jb" then
    vdf_eval ext name (jb_expr c0 mean_name std_name count_name by_)
  else if String.eqb func "aad" then
    vdf_eval ext name
      ("AVG(ABS(" +:+ c0 +:+ " - " +:+ mean_name +:+ ")) OVER (" +:+ by_ +:+ ")")
  else if String.eqb func "mad" then
    vdf_eval ext name
      ("AVG(ABS(" +:+ c0 +:+ " - " +:+ median_name +:+ ")) OVER (" +:+ by_ +:+ ")")
  else ret tt.

(** Lines 203 to 355: the aggregates computed over a partition. *)
Definition analytic_aggregate (func name : string) (columns : list string)
    (by_ order_by : string) (add_count : bool) (random_nb : Z) : M unit :=
  let! warn :=
    (if truthy order_by then
       resolve_global "OPTIONS" ;; ret (negb (print_info ext))
     else ret false) in
  (if warn : bool then ret tt
   else match columns with
        | [] => raise (Exn "MissingColumn"
                  ("The parameter 'column' must be a vDataFrame Column "
                   +:+ "when using analytic method '" +:+ func +:+ "'"))
        | _ => ret tt
        end) ;;
  if in_tuple func ["skewness"; "kurtosis"; "aad"; "mad"; "jb"] then
    analytic_moments func name columns by_ random_nb
  else if String.eqb func "top" then
    let! c0 := item columns 0 in
    let by_str := if negb (truthy by_) then "PARTITION BY " +:+ c0
                  else by_ +:+ ", " +:+ c0 in
    vdf_eval ext name ("ROW_NUMBER() OVER (" +:+ by_str +:+ ")") ;;
    (if add_count then
       let name_str := py_replace dq EmptyString name in
       vdf_eval ext (name_str +:+ "_count")
         ("NTH_VALUE(" +:+ name +:+ ", 1) OVER (" +:+ by_ +:+ " ORDER BY "
          +:+ name +:+ " DESC)")
     else ret tt) ;;
    let! k := getitem name in
    vDCMATH.apply ext k ("NTH_VALUE(" +:+ c0 +:+ ", 1) OVER (" +:+ by_ +:+ " ORDER BY {} DESC)")
          EmptyString
  else if String.eqb func "unique" then
    let! c0 := item columns 0 in
    vdf_eval ext name
      ("DENSE_RANK() OVER (" +:+ by_ +:+ " ORDER BY " +:+ c0 +:+ " ASC) " +:+
       nl +:+ sp 22 +:+ "+ DENSE_RANK() OVER (" +:+ by_ +:+ " ORDER BY " +:+ c0
       +:+ " DESC) - 1")
  else if match last_char func with
          | Some c => Ascii.eqb c "%"
          | None => false
          end then
    match float_div_100 ext (drop_last func) with
    | None =>
        raise_FunctionError
          ("The aggregate function doesn't exist. "
           +:+ "If you want to compute the percentile x of the "
           +:+ "element please write 'x%' with x > 0. Example: "
           +:+ "50% for the median.")
    | Some x =>
        let! c0 := item columns 0 in
        vdf_eval ext name
          ("PERCENTILE_CONT(" +:+ x +:+ ") WITHIN GROUP(ORDER BY " +:+ c0
           +:+ ") OVER (" +:+ by_ +:+ ")")
    end
  else if String.eqb func "range" then
    let! c0 := item columns 0 in
    vdf_eval ext name
      ("MAX(" +:+ c0 +:+ ") OVER (" +:+ by_ +:+ ") - MIN(" +:+ c0 +:+ ") OVER ("
       +:+ by_ +:+ ")")
  else if String.eqb func "iqr" then
    let! c0 := item columns 0 in
    vdf_eval ext name
      ("PERCENTILE_CONT(0.75) WITHIN GROUP(ORDER BY " +:+ c0 +:+ ") OVER ("
       +:+ by_ +:+ ") " +:+
       nl +:+ sp 22 +:+ "- PERCENTILE_CONT(0.25) WITHIN GROUP(ORDER BY " +:+ c0
       +:+ ") OVER (" +:+ by_ +:+ ")")
  else if String.eqb func "sem" then
    let! c0 := item columns 0 in
    vdf_eval ext name
      ("STDDEV(" +:+ c0 +:+ ") OVER (" +:+ by_ +:+ ") / SQRT(COUNT(" +:+ c0
       +:+ ") OVER (" +:+ by_ +:+ "))")
  else if String.eqb func "prod" then
    let! c0 := item columns 0 in
    vdf_eval ext name (prod_expr c0 by_)
  else
    let! c0 := item columns 0 in
    vdf_eval ext name (py_upper func +:+ "(" +:+ c0 +:+ ") OVER (" +:+ by_ +:+ ")").

Definition needs_column : list string :=
  ["lead"; "lag"; "first_value"; "last_value"; "pct_change"].

(** Lines 356 to 410: the window functions. *)
Definition analytic_window (func name : string) (columns : list string)
    (by_ order_by offset x_smoothing : string) : M unit :=
  (match columns with
   | [] =>
       if in_tuple func needs_column then
         raise (Exn "ParameterError"
                  ("The parameter 'columns' must be a vDataFrame column when "
                   +:+ "using analytic method '" +:+ func +:+ "'"))
       else ret tt
   | _ =>
       if negb (in_tuple func (needs_column ++ ["exponential_moving_average"])) then
         raise (Exn "ParameterError"
                  ("The parameter 'columns' must be empty when using analytic"
                   +:+ " method '" +:+ func +:+ "'"))
       else ret tt
   end) ;;
  let order_by := if (truthy by_ && truthy order_by)%bool
                  then " " +:+ order_by else order_by in
  let info_param :=
    if in_tuple func ["lead"; "lag"] then ", " +:+ offset
    else if in_tuple func ["last_value"; "first_value"] then " IGNORE NULLS"
    else if String.eqb func "exponential_moving_average" then ", " +:+ x_smoothing
    else EmptyString in
  if String.eqb func "pct_change" then
    let! c0 := item columns 0 in
    vdf_eval ext name
      (c0 +:+ " / (LAG(" +:+ c0 +:+ ") OVER (" +:+ by_ +:+ order_by +:+ "))")
  else
    let columns0 := match columns with c :: _ => c | [] => EmptyString end in
    vdf_eval ext name
      (py_upper func +:+ "(" +:+ columns0 +:+ info_param +:+ ") OVER (" +:+ by_
       +:+ order_by +:+ ")").

(** Lines 411 to 437: the statistics of two columns. *)
Definition analytic_pair (func name : string) (columns : list string)
    (by_ : string) : M unit :=
  (if Nat.eqb (length columns) 2 then ret tt
   else raise (Exn "AssertionError"
                 ("The parameter 'columns' includes 2 vColumns when using "
                  +:+ "analytic method '" +:+ func +:+ "'"))) ;;
  let! c0 := item columns 0 in
  let! c1 := item columns 1 in
  let expr :=
    if String.eqb c0 c1 then
      if String.eqb func "cov" then "VARIANCE(" +:+ c0 +:+ ") OVER (" +:+ by_ +:+ ")"
      else "1"
    else
      let den :=
        if String.eqb func "corr" then
          " / (STDDEV(" +:+ c0 +:+ ") OVER (" +:+ by_ +:+ ") * STDDEV(" +:+ c1
          +:+ ") OVER (" +:+ by_ +:+ "))"
        else if String.eqb func "beta" then
          " / (VARIANCE(" +:+ c1 +:+ ") OVER (" +:+ by_ +:+ "))"
        else EmptyString in
      nl +:+ sp 20 +:+ "(AVG(" +:+ c0 +:+ " * " +:+ c1 +:+ ") OVER (" +:+ by_ +:+ ") " +:+
      nl +:+ sp 19 +:+ "- AVG(" +:+ c0 +:+ ") OVER (" +:+ by_ +:+ ") " +:+
      nl +:+ sp 19 +:+ "* AVG(" +:+ c1 +:+ ") OVER (" +:+ by_ +:+ "))" +:+ den in
  vdf_eval ext name expr.

(** Lines 438 to 449: any other name. The local [info_param] is bound only
    in the branch of the window functions, so building the expression
    raises inside the [try], and the handler raises in turn. *)
Definition analytic_other (func name : string) (columns : list string) : M unit :=
  try_except
    (item columns 0 ;;
     raise (Exn "UnboundLocalError"
              "local variable 'info_param' referenced before assignment"))
    (fun _ =>
       raise_FunctionError
         ("The aggregate function '" +:+ func +:+ "' doesn't exist or is not "
          +:+ "managed by the 'analytic' method. If you want more "
          +:+ "flexibility use the 'eval' method.")).

(** [exclude_columns += l]. *)
Definition exclude (l : list string) : M unit :=
  modify (fun p => set_exclude_columns (exclude_columns p ++ l) p).

(** [vDFMATH.analytic], lines 184 to 460. [columns], [by] and [order_by]
    are lists, [offset] and [x_smoothing] are given by their renderings,
    and [random_nb] is the number that [random.randint(0, 10000000)]
    returns in the call. *)
Definition analytic (func : string) (columns by_ order_by : list string)
    (name offset x_smoothing : string) (add_count : bool) (random_nb : Z)
    : M unit :=
  let! p := get in
  let! cb := lift (format_colnames ext p columns by_) in
  let columns := cb.1 in
  let by_ := cb.2 in
  let by_name := match by_ with [] => [] | _ => "by" :: by_ end in
  let by_order := match order_by with [] => [] | _ => "order_by" :: order_by end in
  let! name :=
    (if negb (truthy name) then
       resolve_global "gen_name" ;;
       ret (gen_name ext ([func] ++ columns ++ by_name ++ by_order))
     else ret name) in
  let func := py_lower func in
  let by_ := py_join ", " by_ in
  let by_ := if truthy by_ then "PARTITION BY " +:+ by_ else EmptyString in
  let order_by := get_sort_syntax ext order_by in
  let func := verticapy_agg_name ext (py_lower func) in
  (if (in_tuple func
         ["max"; "min"; "avg"; "sum"; "count"; "stddev"; "median"; "variance";
          "unique"; "top"; "kurtosis"; "skewness"; "mad"; "aad"; "range";
          "prod"; "jb"; "iqr"; "sem"]
       || py_in "%" func)%bool then
     analytic_aggregate func name columns by_ order_by add_count random_nb
   else if in_tuple func
         ["lead"; "lag"; "row_number"; "percent_rank"; "dense_rank"; "rank";
          "first_value"; "last_value"; "exponential_moving_average";
          "pct_change"] then
     analytic_window func name columns by_ order_by offset x_smoothing
   else if in_tuple func ["corr"; "cov"; "beta"] then
     analytic_pair func name columns by_
   else analytic_other func name columns) ;;
  let quoted kind :=
    quote_ident (helper_name (default EmptyString (columns !! 0%nat)) kind random_nb) in
  if in_tuple func ["kurtosis"; "skewness"; "jb"] then
    exclude [quoted "mean"; quoted "std"; quoted "count"]
  else if String.eqb func "aad" then exclude [quoted "mean"]
  else if String.eqb func "mad" then exclude [quoted "median"]
  else ret tt.

(** *** [vDFMATH.apply], [vDFMATH.applymap] and [vDFMATH.abs] *)

(** A Python dict from column names to templates, in insertion order; its
    keys are distinct. *)
Definition dict : Type := list (string * string).

(** [d[k] = v]: the value of an existing key is replaced where the key
    stands, a new key goes to the end. *)
Fixpoint dict_set (k v : string) (d : dict) : dict :=
  match d with
  | [] => [(k, v)]
  | (k', v') :: rest =>
      if String.eqb k k' then (k', v) :: rest
      else (k', v') :: dict_set k v rest
  end.

(** The loop of lines 487 and 488:
    [for column in func: self[column].apply(func[column])]. *)
Fixpoint apply_loop (func : dict) : M unit :=
  match func with
  | [] => ret tt
  | (column, f) :: rest =>
      (let! k := getitem column in
       vDCMATH.apply ext k f EmptyString) ;;
      apply_loop rest
  end.

(** [vDFMATH.apply], lines 486 to 489. *)
Definition apply (func : dict) : M unit :=
  let! p := get in
  let! func := lift (format_dict insp p func) in
  apply_loop func.

(** The loop of lines 516 to 519 of [applymap]. *)
Fixpoint applymap_loop (func : string) (columns : list string)
    (function : dict) : M dict :=
  match columns with
  | [] => ret function
  | column :: rest =>
      let! k := getitem column in
      let! p := get in
      applymap_loop func rest
        (dict_set column
           (if negb (isbool insp p k) then func
            else py_replace "{}" "{}::int" func)
           function)
  end.

(** [vDFMATH.applymap], lines 514 to 520. *)
Definition applymap (func : string) (numeric_only : bool) : M unit :=
  let! p := get in
  let columns := if numeric_only then numcol insp p else get_columns p in
  let! function := applymap_loop func columns [] in
  apply function.

(** The loop of lines 88 to 90 of [abs]. *)
Fixpoint abs_loop (columns : list string) (func : dict) : M dict :=
  match columns with
  | [] => ret func
  | column :: rest =>
      let! k := getitem column in
      let! p := get in
      abs_loop rest
        (if negb (isbool insp p k) then dict_set column "ABS({})" func
         else func)
  end.

(** [vDFMATH.abs], lines 84 to 91; [columns] is a list. *)
Definition abs (columns : list string) : M unit :=
  let! p := get in
  let! columns :=
    (match columns with
     | [] => ret (numcol insp p)
     | _ => lift (format_list insp p columns)
     end) in
  let! func := abs_loop columns [] in
  apply func.

End Frame.
End vDFMATH.

(** ** The dependency test as the specification words it *)

(** A specification-level reading of section 4.1,
    [referencesIdentifier(expression, identifier)]: the expression contains
    the identifier in quoted form, or its unquoted form as a free-standing
    word, that is with a word boundary on both sides. A word boundary
    stands between a word character (letter, digit, underscore) and a
    character that is none, the outside of the string counting as none. *)
Module Spec.

Definition is_word_char (c : ascii) : bool :=
  let n := nat_of_ascii c in
  ((Nat.leb 48 n && Nat.leb n 57) || (Nat.leb 65 n && Nat.leb n 90)
   || (Nat.leb 97 n && Nat.leb n 122) || Nat.eqb n 95)%bool.

Definition starts_with_word_char (s : string) : bool :=
  match s with
  | String c _ => is_word_char c
  | EmptyString => false
  end.

Fixpoint drop (n : nat) (s : string) : string :=
  match n, s with
  | S k, String _ s' => drop k s'
  | _, _ => s
  end.

(** [w] stands at the head of [s], between two word boundaries; [before]
    tells whether the character before [s] is a word character. *)
Definition word_here (before : bool) (w s : string) : bool :=
  (String.prefix w s
   && xorb before (starts_with_word_char s)
   && xorb (match last_char w with
            | Some c => is_word_char c
            | None => before
            end)
           (starts_with_word_char (drop (String.length w) s)))%bool.

Fixpoint word_from (before : bool) (w s : string) : bool :=
  if word_here before w s then true
  else match s with
       | EmptyString => false
       | String c s' => word_from (is_word_char c) w s'
       end.

Definition contains_word (w s : string) : bool := word_from false w s.

Definition unquoted (identifier : string) : string :=
  py_replace dq EmptyString identifier.

Definition referencesIdentifier (expression identifier : string) : bool :=
  (py_in (quote_ident identifier) expression
   || contains_word (unquoted identifier) expression)%bool.

End Spec.

(** ** Concrete frames and collaborators, for the examples *)

Module Sample.

(** The quoted form of a plain name. *)
Definition q (name : string) : string := dq +:+ name +:+ dq.

(** A column as a frame has it at creation: one step, the raw column. *)
Definition raw (name : string) : step := (q name, "int", "int").

(** The regular expression [\bw\b] searched the way [re.search] would. *)
Definition word_search (pattern s : string) : bool :=
  Spec.contains_word (drop_last (drop_last (Spec.drop 2 pattern))) s.

(** The database accepts every expression but those that mention
    [NO_SUCH_FUNCTION], and types them as integers. *)
Definition probe (sql : string) : exn + string :=
  if py_in "NO_SUCH_FUNCTION" sql
  then inl (Exn "QueryError" "Function NO_SUCH_FUNCTION does not exist")
  else inr "int".

(** The collaborators, but for [eval]. A column name is normalised by
    quoting it, and refused when its quoted form is the alias of no column
    of the frame. *)
Definition collaborators (eval : string -> string -> M unit) : External :=
  {| genSQL := fun _ => "public.t";
     get_data_types := fun sql _ => probe sql;
     to_category := fun ct => if String.eqb ct "int" then "int" else "undefined";
     re_search := word_search;
     verticapy_agg_name := fun f => f;
     format_colnames := fun p cols by_ =>
       match List.find (fun c => negb (bool_decide (is_Some (vcolumns p !! quote_ident c))))
                       (cols ++ by_) with
       | Some c =>
           inl (Exn "MissingColumn" ("The Virtual Column '" +:+ c +:+ "' doesn't exist"))
       | None => inr (map quote_ident cols, map quote_ident by_)
       end;
     get_sort_syntax := fun l => match l with
                                 | [] => EmptyString
                                 | _ => "ORDER BY " +:+ py_join ", " l
                                 end;
     float_div_100 := fun _ => None;
     vdf_eval := eval;
     gen_name := py_join "_";
     print_info := false |}.

(** Modelled from the spec: [vDataFrame.eval] is defined in another file.
    Section 4.4, [evalColumn]: on an alias of the frame it calls [apply]
    on the entry; on a new alias it creates a column whose chain is padded
    with identity steps up to the greatest depth among the columns that
    the expression references and then receives the step; it appends a
    history entry. The type and category come from the probe, which also
    reports an expression that the database cannot evaluate. *)
Definition evalColumn (e : External) (name expr : string) : M unit :=
  let key := quote_ident name in
  let! p := get in
  match vcolumns p !! key with
  | Some _ => vDCMATH.apply e key expr EmptyString
  | None =>
      let! ct := lift (get_data_types e expr name) in
      let cat := to_category e ct in
      let floor :=
        foldr Nat.max O
          (omap (fun c => if Spec.referencesIdentifier expr c then depth p c else None)
                (columns p)) in
      let! a := new_dict ∅ in
      register_column key
        (mk_vColumn (replicate floor ("{}", ct, cat) ++ [(expr, ct, cat)]) a) ;;
      add_to_history ("[Eval]: A new vColumn " +:+ key +:+ " was added to the vDataFrame.")
  end.

(** The collaborators of the examples. *)
Definition db : External :=
  collaborators (evalColumn (collaborators (fun _ _ => ret tt))).

(** Columns [x] (never transformed) and [y] (transformed twice), with a
    cached maximum on [x]. *)
Definition frame_xy : vDataFrame :=
  {| columns := [q "x"; q "y"];
     exclude_columns := [];
     history := [];
     vcolumns :=
       {[ q "x" := mk_vColumn [raw "x"] 0;
          q "y" := mk_vColumn [raw "y"; ("{} + 1", "int", "int");
                               ("{} * 2", "int", "int")] 1 ]};
     dicts := [ {[ "max" := "3" ]}; ∅ ] |}.

End Sample.

(** * Properties *)

(** ** Running a computation *)

Lemma bind_inr {A B} (m : M A) (k : A -> M B) p a p' :
  m p = (inr a, p') -> bind m k p = k a p'.
Proof. intros E. unfold bind. by rewrite E. Qed.

Lemma bind_inl {A B} (m : M A) (k : A -> M B) p e p' :
  m p = (inl e, p') -> bind m k p = (inl e, p').
Proof. intros E. unfold bind. by rewrite E. Qed.

Lemma bind_success {A B} (m : M A) (k : A -> M B) p b p' :
  bind m k p = (inr b, p') ->
  exists a p1, m p = (inr a, p1) /\ k a p1 = (inr b, p').
Proof.
  unfold bind. destruct (m p) as [[e|a] p1]; [discriminate|].
  intros E. by exists a, p1.
Qed.

Lemma try_inr {A} (body : M A) handler p a p' :
  body p = (inr a, p') -> try_except body handler p = (inr a, p').
Proof. intros E. unfold try_except. by rewrite E. Qed.

Lemma try_inl {A} (body : M A) handler p e p' :
  body p = (inl e, p') -> try_except body handler p = handler e p'.
Proof. intros E. unfold try_except. by rewrite E. Qed.

(** ** Relations that every step of a computation keeps *)

(** [preserves R m]: whatever [m] does, returning or raising, the frame it
    leaves is related by [R] to the frame it started from. *)
Definition preserves (R : relation vDataFrame) {A} (m : M A) : Prop :=
  forall p, R p (m p).2.

Section Preserves.

Context (R : relation vDataFrame) `{!PreOrder R}.

Lemma preserves_ret {A} (a : A) : preserves R (ret a).
Proof. intros p. reflexivity. Qed.

Lemma preserves_raise {A} e : preserves R (@raise A e).
Proof. intros p. reflexivity. Qed.

Lemma preserves_lift {A} (r : exn + A) : preserves R (lift r).
Proof. intros p. reflexivity. Qed.

Lemma preserves_get : preserves R get.
Proof. intros p. reflexivity. Qed.

Lemma preserves_bind {A B} (m : M A) (k : A -> M B) :
  preserves R m -> (forall a, preserves R (k a)) -> preserves R (bind m k).
Proof.
  intros Hm Hk p. unfold bind. specialize (Hm p).
  destruct (m p) as [[e|a] p1]; simpl in *; [done|].
  etrans; [exact Hm | apply Hk].
Qed.

Lemma preserves_try {A} (body : M A) handler :
  preserves R body -> (forall e, preserves R (handler e)) ->
  preserves R (try_except body handler).
Proof.
  intros Hm Hk p. unfold try_except. specialize (Hm p).
  destruct (body p) as [[e|a] p1]; simpl in *; [|done].
  etrans; [exact Hm | apply Hk].
Qed.

Lemma preserves_for_range n (body : M unit) :
  preserves R body -> preserves R (for_range n body).
Proof.
  intros Hb. induction n as [|n IH]; simpl.
  - apply preserves_ret.
  - apply preserves_bind; [done | by intros _].
Qed.

Lemma preserves_resolve_global name : preserves R (resolve_global name).
Proof.
  unfold resolve_global.
  destruct (in_tuple name module_globals); [apply preserves_ret | apply preserves_raise].
Qed.

Lemma preserves_getitem name : preserves R (getitem name).
Proof. intros p. unfold getitem. destruct (_ !! _); reflexivity. Qed.

Lemma preserves_column_object self : preserves R (column_object self).
Proof. intros p. unfold column_object. destruct (_ !! _); reflexivity. Qed.

Lemma preserves_transformations_of self : preserves R (transformations_of self).
Proof.
  unfold transformations_of.
  apply preserves_bind; [apply preserves_column_object | intros; apply preserves_ret].
Qed.

Lemma preserves_catalog_of self : preserves R (catalog_of self).
Proof.
  unfold catalog_of.
  apply preserves_bind; [apply preserves_column_object | intros; apply preserves_ret].
Qed.

Lemma preserves_last_step self : preserves R (last_step self).
Proof.
  unfold last_step.
  apply preserves_bind; [apply preserves_transformations_of |].
  intros t. destruct (last t); [apply preserves_ret | apply preserves_raise].
Qed.

Lemma preserves_identity_step self : preserves R (vDCMATH.identity_step self).
Proof.
  unfold vDCMATH.identity_step.
  apply preserves_bind; [|intros ct].
  { unfold ctype. apply preserves_bind; [apply preserves_last_step|].
    intros; apply preserves_ret. }
  apply preserves_bind; [|intros cat; apply preserves_ret].
  unfold category. apply preserves_bind; [apply preserves_last_step|].
  intros; apply preserves_ret.
Qed.

Lemma preserves_references ext column func :
  preserves R (vDCMATH.references ext column func).
Proof.
  unfold vDCMATH.references. destruct (py_in _ _); [apply preserves_ret|].
  apply preserves_bind; [apply preserves_resolve_global | intros; apply preserves_ret].
Qed.

Lemma preserves_max_floor_loop ext func cols z :
  preserves R (vDCMATH.max_floor_loop ext func cols z).
Proof.
  revert z. induction cols as [|c cols IH]; intros z; simpl.
  - apply preserves_ret.
  - apply preserves_bind; [|done].
    apply preserves_try; [|intros; apply preserves_ret].
    apply preserves_bind; [apply preserves_references|].
    intros [|]; [|apply preserves_ret].
    apply preserves_bind; [apply preserves_getitem|intros].
    apply preserves_bind; [apply preserves_transformations_of|intros].
    apply preserves_ret.
Qed.

(** The primitives that change the frame. *)
Record Stable : Prop := {
  stable_append_step : forall self s, preserves R (append_step self s);
  stable_set_catalog : forall self a, preserves R (set_catalog self a);
  stable_new_dict : forall d, preserves R (new_dict d);
  stable_add_copy : forall self name, preserves R (add_copy self name)
}.

Context (HS : Stable).

Lemma preserves_update_catalog_erase cols :
  preserves R (update_catalog_erase cols).
Proof.
  induction cols as [|c cols IH]; simpl; [apply preserves_ret|].
  apply preserves_bind; [apply preserves_getitem|intros].
  apply preserves_bind; [apply HS|intros].
  apply preserves_bind; [apply HS|by intros].
Qed.

Lemma preserves_apply_update ext self func copy_name func_apply :
  preserves R (vDCMATH.apply_update ext self func copy_name func_apply).
Proof.
  unfold vDCMATH.apply_update.
  apply preserves_bind; [apply preserves_get|intros p0].
  apply preserves_bind; [apply preserves_lift|intros ct].
  apply preserves_bind; [apply preserves_get|intros p1].
  apply preserves_bind; [apply preserves_max_floor_loop|intros mf].
  apply preserves_bind; [apply preserves_transformations_of|intros t].
  destruct (truthy copy_name).
  - apply preserves_bind; [apply HS|intros _].
    apply preserves_bind; [|intros _].
    { apply preserves_for_range.
      apply preserves_bind; [apply preserves_getitem|intros].
      apply preserves_bind; [apply preserves_identity_step|intros].
      apply HS. }
    apply preserves_bind; [|intros _].
    { apply preserves_bind; [apply preserves_getitem|intros]. apply HS. }
    apply preserves_bind; [apply preserves_getitem|intros].
    apply preserves_bind; [apply preserves_catalog_of|intros].
    apply HS.
  - apply preserves_bind; [|intros _].
    { apply preserves_for_range.
      apply preserves_bind; [apply preserves_identity_step|intros].
      apply HS. }
    apply preserves_bind; [apply HS|intros _].
    apply preserves_update_catalog_erase.
Qed.

End Preserves.

(** ** The history log and the depths along a call *)

(** The history is left as it is. *)
Definition same_history : relation vDataFrame :=
  fun p p' => history p' = history p.

(** The history only grows at its end. *)
Definition history_grows : relation vDataFrame :=
  fun p p' => history p `prefix_of` history p'.

(** Every column stays, and no chain gets shorter. *)
Definition depth_grows : relation vDataFrame :=
  fun p p' => forall c d, depth p c = Some d ->
                          exists d', depth p' c = Some d' /\ (d <= d')%nat.

#[local] Instance same_history_preorder : PreOrder same_history.
Proof.
  split; [by intros p | intros p1 p2 p3 H1 H2].
  unfold same_history in *. congruence.
Qed.

#[local] Instance history_grows_preorder : PreOrder history_grows.
Proof.
  split; [intros p; by unfold history_grows | intros p1 p2 p3 H1 H2].
  unfold history_grows in *. by etrans.
Qed.

#[local] Instance depth_grows_preorder : PreOrder depth_grows.
Proof.
  split.
  - intros p c d H. by exists d.
  - intros p1 p2 p3 H1 H2 c d H.
    destruct (H1 c d H) as (d1 & E1 & L1).
    destruct (H2 c d1 E1) as (d2 & E2 & L2).
    exists d2. split; [done | lia].
Qed.

Lemma same_history_stable : Stable same_history.
Proof.
  split.
  - intros self s p. unfold append_step, bind, column_object.
    by destruct (vcolumns p !! self).
  - intros self a p. unfold set_catalog, bind, column_object.
    by destruct (vcolumns p !! self).
  - by intros d p.
  - intros self name p. unfold add_copy, bind, column_object, get.
    destruct (vcolumns p !! self); [|done].
    by destruct (vcolumns p !! quote_ident name).
Qed.

Lemma history_grows_stable : Stable history_grows.
Proof.
  destruct same_history_stable as [H1 H2 H3 H4].
  split; intros; intros p; unfold history_grows.
  - by rewrite (H1 self s p).
  - by rewrite (H2 self a p).
  - by rewrite (H3 d p).
  - by rewrite (H4 self name p).
Qed.

Lemma depth_insert_grows p key col :
  (forall old, vcolumns p !! key = Some old ->
               (length (transformations old) <= length (transformations col))%nat) ->
  depth_grows p (set_vcolumns (<[key := col]> (vcolumns p)) p).
Proof.
  intros Hold c d. unfold depth; simpl.
  destruct (decide (key = c)) as [->|Hne].
  - rewrite lookup_insert_eq. destruct (vcolumns p !! c) as [old|] eqn:E; [|done].
    intros [= <-]. eexists; split; [done|]. by apply Hold.
  - rewrite lookup_insert_ne by done. intros E. by exists d.
Qed.

Lemma depth_grows_stable : Stable depth_grows.
Proof.
  split.
  - intros self s p. unfold append_step, bind, column_object.
    destruct (vcolumns p !! self) as [c|] eqn:E; simpl; [|reflexivity].
    apply depth_insert_grows. intros old. rewrite E. intros [= <-].
    simpl. rewrite length_app. lia.
  - intros self a p. unfold set_catalog, bind, column_object.
    destruct (vcolumns p !! self) as [c|] eqn:E; simpl; [|reflexivity].
    apply depth_insert_grows. intros old. rewrite E. by intros [= <-].
  - intros d p c n H. by exists n.
  - intros self name p. unfold add_copy, bind, column_object, get.
    destruct (vcolumns p !! self) as [c|] eqn:E; simpl; [|reflexivity].
    destruct (vcolumns p !! quote_ident name) as [c'|] eqn:E'; simpl; [reflexivity|].
    intros c0 d. unfold depth; simpl.
    destruct (decide (quote_ident name = c0)) as [<-|Hne].
    + by rewrite E'.
    + rewrite lookup_insert_ne by done. intros H. by exists d.
Qed.

Lemma preserves_add_to_history_grows msg :
  preserves history_grows (add_to_history msg).
Proof. intros p. unfold history_grows. simpl. by apply prefix_app_r. Qed.

Lemma preserves_add_to_history_depth msg :
  preserves depth_grows (add_to_history msg).
Proof. intros p c d H. by exists d. Qed.

Lemma preserves_apply R `{!PreOrder R} ext self func copy_name :
  Stable R -> (forall msg, preserves R (add_to_history msg)) ->
  preserves R (vDCMATH.apply ext self func copy_name).
Proof.
  intros HS Hh. unfold vDCMATH.apply. cbv zeta.
  apply (preserves_try R); [|intros; apply (preserves_raise R)].
  unfold vDCMATH.apply_body.
  apply (preserves_bind R); [by apply preserves_apply_update | intros; apply Hh].
Qed.

(** A sequence of [apply] calls, each on its column, template and copy
    name; a call that raises is caught and the sequence goes on. *)
Definition run_calls (ext : External) (calls : list (string * string * string))
    (p : vDataFrame) : vDataFrame :=
  fold_left (fun p c => (vDCMATH.apply ext c.1.1 c.1.2 c.2 p).2) calls p.

Lemma preserves_run_calls R `{!PreOrder R} ext calls p :
  Stable R -> (forall msg, preserves R (add_to_history msg)) ->
  R p (run_calls ext calls p).
Proof.
  intros HS Hh. revert p. induction calls as [|c calls IH]; intros p; simpl.
  - reflexivity.
  - etrans; [|apply IH]. by apply preserves_apply.
Qed.

(** ** What a call of [apply] computes *)

(** The greatest depth among the columns of [cols] that pass [test] and
    are columns of the frame, starting from [acc]: what the loop of lines
    641 to 651 computes when [test] is its dependency test. *)
Fixpoint max_depth_where (test : string -> bool) (p : vDataFrame)
    (cols : list string) (acc : nat) : nat :=
  match cols with
  | [] => acc
  | c :: rest =>
      max_depth_where test p rest
        (if test c then
           match depth p (quote_ident c) with
           | Some d => Nat.max d acc
           | None => acc
           end
         else acc)
  end.

(** The test that the loop effectively applies: the quoted alias occurs
    in the template. *)
Definition quoted_in (func column : string) : bool :=
  py_in (quote_ident column) func.

(** The greatest depth among the listed columns whose quoted alias occurs
    in the template. *)
Definition quoted_depth (p : vDataFrame) (func : string) : nat :=
  max_depth_where (quoted_in func) p (get_columns p) 0.

(** The identity step that pads a chain ending with the step [s0]. *)
Definition identity_of (s0 : step) : step :=
  ("{}", step_ctype s0, step_category s0).

(** The frame after a successful call without copy name. *)
Definition applied_frame (ext : External) (p : vDataFrame) (self func ct : string)
    (col : vColumn) (s0 : step) : vDataFrame :=
  mk_vDataFrame (columns p) (exclude_columns p)
    (history p ++ [vDCMATH.history_entry (py_replace dq EmptyString self)
                                          (py_replace "{}" self func)])
    (<[self := mk_vColumn
                 (transformations col
                  ++ replicate (quoted_depth p func - length (transformations col))
                               (identity_of s0)
                  ++ [(func, ct, to_category ext ct)])
                 (length (dicts p))]> (vcolumns p))
    (dicts p ++ [∅]).

(** The frame after a successful call with a copy name. *)
Definition copied_frame (ext : External) (p : vDataFrame)
    (self func copy_name ct : string) (col : vColumn) (s0 : step) : vDataFrame :=
  mk_vDataFrame (columns p ++ [quote_ident copy_name]) (exclude_columns p)
    (history p ++ [vDCMATH.history_entry (py_replace dq EmptyString self)
                                          (py_replace "{}" self func)])
    (<[quote_ident copy_name :=
         mk_vColumn
           (transformations col
            ++ replicate (quoted_depth p func - length (transformations col))
                         (identity_of s0)
            ++ [(func, ct, to_category ext ct)])
           (catalog col)]> (vcolumns p))
    (dicts p ++ [default ∅ (dicts p !! catalog col)]).

(** The column [self] is a column of the frame under its canonical alias,
    and its chain is not empty (sections 3 and 4.2 of the specification:
    every column has at least the step of the raw column). *)
Definition wf_column (p : vDataFrame) (self : string) (col : vColumn) (s0 : step)
    : Prop :=
  vcolumns p !! self = Some col /\ last (transformations col) = Some s0
  /\ quote_ident self = self.

Lemma references_run ext column func p :
  vDCMATH.references ext column func p
  = (if quoted_in func column then inr true
     else inl (Exn "NameError" "name 're' is not defined"), p).
Proof.
  unfold vDCMATH.references, quoted_in.
  by destruct (py_in (quote_ident column) func).
Qed.

Lemma max_floor_loop_run ext func cols acc p :
  vDCMATH.max_floor_loop ext func cols (Z.of_nat acc) p
  = (inr (Z.of_nat (max_depth_where (quoted_in func) p cols acc)), p).
Proof.
  revert acc. induction cols as [|c cols IH]; intros acc; [done|].
  cbn [vDCMATH.max_floor_loop max_depth_where].
  erewrite bind_inr; [apply IH|].
  unfold try_except, bind. rewrite references_run.
  destruct (quoted_in func c); [|done].
  unfold getitem, depth.
  destruct (vcolumns p !! quote_ident c) as [col|] eqn:E; [|done].
  unfold transformations_of, bind, column_object. rewrite E. cbn.
  by rewrite Nat2Z.inj_max.
Qed.

Lemma column_object_run p self col :
  vcolumns p !! self = Some col -> column_object self p = (inr col, p).
Proof. intros E. unfold column_object. by rewrite E. Qed.

Lemma transformations_of_run p self col :
  vcolumns p !! self = Some col ->
  transformations_of self p = (inr (transformations col), p).
Proof.
  intros E. unfold transformations_of.
  by erewrite bind_inr; [|by apply column_object_run].
Qed.

Lemma catalog_of_run p self col :
  vcolumns p !! self = Some col -> catalog_of self p = (inr (catalog col), p).
Proof.
  intros E. unfold catalog_of.
  by erewrite bind_inr; [|by apply column_object_run].
Qed.

Lemma last_step_run p self col s0 :
  vcolumns p !! self = Some col -> last (transformations col) = Some s0 ->
  last_step self p = (inr s0, p).
Proof.
  intros E L. unfold last_step.
  erewrite bind_inr; [|by apply transformations_of_run]. by rewrite L.
Qed.

Lemma identity_step_run p self col s0 :
  vcolumns p !! self = Some col -> last (transformations col) = Some s0 ->
  vDCMATH.identity_step self p = (inr (identity_of s0), p).
Proof.
  intros E L. unfold vDCMATH.identity_step, ctype, category.
  erewrite bind_inr; cycle 1.
  { by erewrite bind_inr; [|by eapply last_step_run]. }
  erewrite bind_inr; cycle 1.
  { by erewrite bind_inr; [|by eapply last_step_run]. }
  done.
Qed.

Lemma append_step_run p self col s :
  vcolumns p !! self = Some col ->
  append_step self s p
  = (inr tt, set_vcolumns
               (<[self := mk_vColumn (transformations col ++ [s]) (catalog col)]>
                  (vcolumns p)) p).
Proof. intros E. unfold append_step, bind, column_object. by rewrite E. Qed.

Lemma getitem_run p name col :
  vcolumns p !! quote_ident name = Some col ->
  getitem name p = (inr (quote_ident name), p).
Proof. intros E. unfold getitem. by rewrite E. Qed.

Lemma set_vcolumns_id p col self :
  vcolumns p !! self = Some col ->
  set_vcolumns (<[self := mk_vColumn (transformations col ++ []) (catalog col)]>
                  (vcolumns p)) p = p.
Proof.
  intros E. rewrite app_nil_r. destruct col as [t a]. cbn.
  rewrite insert_id by done. by destruct p.
Qed.

(** The padding loop on the column itself, lines 663 and 664. *)
Lemma pad_self_run n p self col s0 :
  vcolumns p !! self = Some col -> last (transformations col) = Some s0 ->
  for_range n (let! s := vDCMATH.identity_step self in append_step self s) p
  = (inr tt, set_vcolumns
               (<[self := mk_vColumn
                            (transformations col ++ replicate n (identity_of s0))
                            (catalog col)]> (vcolumns p)) p).
Proof.
  revert p col s0. induction n as [|n IH]; intros p col s0 E L.
  - cbn. by rewrite set_vcolumns_id.
  - cbn [for_range].
    erewrite bind_inr; cycle 1.
    { erewrite bind_inr; [|by eapply identity_step_run].
      by apply append_step_run. }
    erewrite (IH _ _ (identity_of s0)); cycle 1.
    { cbn. apply lookup_insert_eq. }
    { cbn. apply last_snoc. }
    cbn. rewrite insert_insert_eq, <- app_assoc. done.
Qed.

(** The padding loop on the copy, lines 656 to 659. *)
Lemma pad_copy_run n p self copy_name col s0 kcol :
  vcolumns p !! self = Some col -> last (transformations col) = Some s0 ->
  vcolumns p !! quote_ident copy_name = Some kcol ->
  quote_ident copy_name <> self ->
  for_range n (let! k := getitem copy_name in
               let! s := vDCMATH.identity_step self in
               append_step k s) p
  = (inr tt, set_vcolumns
               (<[quote_ident copy_name :=
                    mk_vColumn (transformations kcol ++ replicate n (identity_of s0))
                               (catalog kcol)]> (vcolumns p)) p).
Proof.
  revert p kcol. induction n as [|n IH]; intros p kcol E L Ek Hne.
  - cbn. by rewrite set_vcolumns_id.
  - cbn [for_range].
    erewrite bind_inr; cycle 1.
    { erewrite bind_inr; [|by eapply getitem_run].
      erewrite bind_inr; [|by eapply identity_step_run].
      by apply append_step_run. }
    erewrite (IH _ (mk_vColumn (transformations kcol ++ [identity_of s0])
                               (catalog kcol))); cycle 1.
    { cbn. by rewrite lookup_insert_ne. }
    { done. }
    { cbn. apply lookup_insert_eq. }
    { done. }
    cbn. rewrite insert_insert_eq, <- app_assoc. done.
Qed.

Lemma bind_get {B} (k : vDataFrame -> M B) p : bind get k p = k p p.
Proof. done. Qed.

Lemma to_nat_sub (a b : nat) : Z.to_nat (Z.of_nat a - Z.of_nat b) = (a - b)%nat.
Proof. lia. Qed.

Lemma set_catalog_run p self col a :
  vcolumns p !! self = Some col ->
  set_catalog self a p
  = (inr tt, set_vcolumns (<[self := mk_vColumn (transformations col) a]> (vcolumns p)) p).
Proof. intros E. unfold set_catalog, bind, column_object. by rewrite E. Qed.

Section ApplyRuns.

Context (ext : External) (p : vDataFrame) (self func copy_name : string).
Context (col : vColumn) (s0 : step).
Context (Hwf : wf_column p self col s0).

Let func_apply := py_replace "{}" self func.
Let alias_sql_repr := py_replace dq EmptyString self.
Let probe := get_data_types ext (vDCMATH.probe_query ext p func_apply self)
                            "apply_test_feature".

Lemma apply_update_probe_fails e0 :
  probe = inl e0 ->
  vDCMATH.apply_update ext self func copy_name func_apply p = (inl e0, p).
Proof.
  intros Hp. unfold vDCMATH.apply_update. rewrite bind_get.
  erewrite bind_inl; [done|]. unfold lift. fold func_apply probe. by rewrite Hp.
Qed.

Lemma apply_update_in_place ct :
  probe = inr ct -> truthy copy_name = false ->
  vDCMATH.apply_update ext self func copy_name func_apply p
  = (inr tt,
     mk_vDataFrame (columns p) (exclude_columns p) (history p)
       (vcolumns (applied_frame ext p self func ct col s0))
       (dicts p ++ [∅])).
Proof.
  intros Hp Ht. destruct Hwf as (E & L & Hq).
  unfold vDCMATH.apply_update. rewrite bind_get.
  erewrite bind_inr; cycle 1.
  { unfold lift. fold func_apply probe. by rewrite Hp. }
  rewrite bind_get.
  erewrite bind_inr; [|apply (max_floor_loop_run ext func _ 0)].
  erewrite bind_inr; [|by apply transformations_of_run].
  rewrite Ht, to_nat_sub.
  erewrite bind_inr; [|by eapply pad_self_run].
  erewrite bind_inr; cycle 1.
  { apply append_step_run. cbn. apply lookup_insert_eq. }
  cbn [update_catalog_erase].
  erewrite bind_inr; cycle 1.
  { eapply getitem_run. rewrite Hq. cbn. apply lookup_insert_eq. }
  erewrite bind_inr; [|reflexivity].
  erewrite bind_inr; cycle 1.
  { rewrite Hq. apply set_catalog_run. cbn. apply lookup_insert_eq. }
  cbn. rewrite !insert_insert_eq, <- app_assoc. done.
Qed.

Lemma apply_update_copy_taken ct old :
  probe = inr ct -> truthy copy_name = true ->
  vcolumns p !! quote_ident copy_name = Some old ->
  vDCMATH.apply_update ext self func copy_name func_apply p
  = (inl (Exn "NameError"
              ("A vColumn has already the alias " +:+ quote_ident copy_name +:+ ".")),
     p).
Proof.
  intros Hp Ht Hk. destruct Hwf as (E & L & Hq).
  unfold vDCMATH.apply_update. rewrite bind_get.
  erewrite bind_inr; cycle 1.
  { unfold lift. fold func_apply probe. by rewrite Hp. }
  rewrite bind_get.
  erewrite bind_inr; [|apply (max_floor_loop_run ext func _ 0)].
  erewrite bind_inr; [|by apply transformations_of_run].
  rewrite Ht.
  erewrite bind_inl; [done|].
  unfold add_copy.
  erewrite bind_inr; [|by apply column_object_run].
  rewrite bind_get. by rewrite Hk.
Qed.

Lemma apply_update_copy ct :
  probe = inr ct -> truthy copy_name = true ->
  vcolumns p !! quote_ident copy_name = None ->
  vDCMATH.apply_update ext self func copy_name func_apply p
  = (inr tt,
     mk_vDataFrame (columns p ++ [quote_ident copy_name]) (exclude_columns p)
       (history p)
       (vcolumns (copied_frame ext p self func copy_name ct col s0))
       (dicts p ++ [default ∅ (dicts p !! catalog col)])).
Proof.
  intros Hp Ht Hk. destruct Hwf as (E & L & Hq).
  assert (quote_ident copy_name <> self) as Hne by congruence.
  unfold vDCMATH.apply_update. rewrite bind_get.
  erewrite bind_inr; cycle 1.
  { unfold lift. fold func_apply probe. by rewrite Hp. }
  rewrite bind_get.
  erewrite bind_inr; [|apply (max_floor_loop_run ext func _ 0)].
  erewrite bind_inr; [|by apply transformations_of_run].
  rewrite Ht, to_nat_sub.
  erewrite bind_inr; cycle 1.
  { unfold add_copy.
    erewrite bind_inr; [|by apply column_object_run].
    rewrite bind_get, Hk.
    erewrite bind_inr; [|reflexivity]. reflexivity. }
  erewrite bind_inr; cycle 1.
  { eapply (pad_copy_run _ _ self copy_name col s0).
    - cbn. by rewrite lookup_insert_ne.
    - done.
    - cbn. apply lookup_insert_eq.
    - done. }
  erewrite bind_inr; cycle 1.
  { erewrite bind_inr; [|eapply getitem_run; cbn; apply lookup_insert_eq].
    apply append_step_run. cbn. apply lookup_insert_eq. }
  erewrite bind_inr; [|eapply getitem_run; cbn; apply lookup_insert_eq].
  erewrite bind_inr; cycle 1.
  { apply catalog_of_run. cbn. by rewrite !lookup_insert_ne. }
  erewrite set_catalog_run; [|cbn; apply lookup_insert_eq].
  cbn. rewrite !insert_insert_eq, <- app_assoc. done.
Qed.

(** The four outcomes of a call on a well-formed column. *)
Lemma apply_run :
  vDCMATH.apply ext self func copy_name p =
  match probe with
  | inl e0 => (inl (vDCMATH.query_error e0 func_apply alias_sql_repr), p)
  | inr ct =>
      if truthy copy_name then
        match vcolumns p !! quote_ident copy_name with
        | Some _ =>
            (inl (vDCMATH.query_error
                    (Exn "NameError"
                         ("A vColumn has already the alias "
                          +:+ quote_ident copy_name +:+ "."))
                    func_apply alias_sql_repr), p)
        | None => (inr tt, copied_frame ext p self func copy_name ct col s0)
        end
      else (inr tt, applied_frame ext p self func ct col s0)
  end.
Proof.
  unfold vDCMATH.apply. cbv zeta. fold func_apply alias_sql_repr.
  unfold vDCMATH.apply_body.
  destruct probe as [e0|ct] eqn:Hp.
  - erewrite try_inl; [done|].
    erewrite bind_inl; [done|]. by apply apply_update_probe_fails.
  - destruct (truthy copy_name) eqn:Ht.
    + destruct (vcolumns p !! quote_ident copy_name) as [old|] eqn:Hk.
      * erewrite try_inl; [done|].
        erewrite bind_inl; [done|]. by eapply apply_update_copy_taken.
      * erewrite try_inr; [done|].
        erewrite bind_inr; [|by eapply apply_update_copy]. done.
    + erewrite try_inr; [done|].
      erewrite bind_inr; [|by eapply apply_update_in_place]. done.
Qed.

End ApplyRuns.

(** ** C1: the dependency test *)

Import Sample.

(** C1 (the code departs from the claim). The claim: the dependency test
    of [apply] holds when the template contains the alias in quoted form or
    as a free-standing word in unquoted form, so that a column referenced
    only in unquoted form counts for the greatest referenced depth. On the
    template [{} + y], which references the column [y] as a free-standing
    word, the test as the specification words it holds; the code's test
    raises [NameError], because the module never imports [re], the bare
    [except] swallows it, the loop leaves [max_floor] at 0 although [y] has
    depth 3, and the call appends its step without any padding. This
    holds whatever the collaborators are, [re.search] included. *)
Theorem C1_unquoted_reference_is_not_counted (e : External) :
  let func := "{} + y" in
  Spec.referencesIdentifier func (q "y") = true
  /\ vDCMATH.references e (q "y") func frame_xy
     = (inl (Exn "NameError" "name 're' is not defined"), frame_xy)
  /\ vDCMATH.max_floor_loop e func (get_columns frame_xy) 0 frame_xy
     = (inr 0, frame_xy)
  /\ depth frame_xy (q "y") = Some 3%nat
  /\ depth frame_xy (q "x") = Some 1%nat
  /\ depth (vDCMATH.apply db (q "x") func EmptyString frame_xy).2 (q "x")
     = Some 2%nat.
Proof.
  cbv zeta. split; [by vm_compute|]. split.
  { rewrite references_run. by vm_compute. }
  split.
  { rewrite (max_floor_loop_run e _ _ 0). by vm_compute. }
  repeat split; by vm_compute.
Qed.

(** ** C2: the depth of a column along calls *)

Lemma apply_depth ext p self func col s0 p' :
  wf_column p self col s0 ->
  vDCMATH.apply ext self func EmptyString p = (inr tt, p') ->
  depth p' self
  = Some (S (length (transformations col)
             + (quoted_depth p func - length (transformations col)))).
Proof.
  intros Hwf. rewrite (apply_run ext p self func EmptyString col s0 Hwf).
  destruct (get_data_types _ _ _) as [e0|ct]; [done|]. cbn [truthy].
  intros [= <-]. unfold depth, applied_frame. cbn.
  rewrite lookup_insert_eq. cbn.
  rewrite !length_app, length_replicate. cbn. f_equal. lia.
Qed.

(** The greatest depth among the listed columns that the template
    references, in the sense of section 4.1 of the specification. *)
Definition referenced_depth (p : vDataFrame) (func : string) : nat :=
  max_depth_where (Spec.referencesIdentifier func) p (get_columns p) 0.

Lemma max_depth_where_ext test1 test2 p cols acc :
  (forall c, c ∈ cols -> test1 c = test2 c) ->
  max_depth_where test1 p cols acc = max_depth_where test2 p cols acc.
Proof.
  revert acc. induction cols as [|c cols IH]; intros acc H; [done|].
  cbn. rewrite (H c) by apply list_elem_of_here.
  apply IH. intros c' Hc'. apply H. by apply list_elem_of_further.
Qed.

(** When every reference of the template is written in quoted form, the
    code's test and the specification's test select the same columns. *)
Lemma quoted_depth_referenced p func :
  (forall c, c ∈ get_columns p ->
             Spec.referencesIdentifier func c = true -> quoted_in func c = true) ->
  quoted_depth p func = referenced_depth p func.
Proof.
  intros H. apply max_depth_where_ext. intros c Hc.
  specialize (H c Hc). unfold Spec.referencesIdentifier, quoted_in in *.
  destruct (py_in (quote_ident c) func); [done|].
  destruct (Spec.contains_word _ _); [by specialize (H eq_refl)|done].
Qed.

(** Along a sequence of calls, one call after the other. *)
Lemma run_calls_app ext calls1 calls2 p :
  run_calls ext (calls1 ++ calls2) p = run_calls ext calls2 (run_calls ext calls1 p).
Proof. unfold run_calls. by rewrite fold_left_app. Qed.

(** C2 (amended). Along any sequence of calls of [apply], failed ones
    included, the depth of a column never decreases. A successful call
    without copy name, whose template names the columns it references in
    quoted form, first pads the chain of the column with identity steps
    [("{}", type, category)] of the column's current type and category,
    up to the greatest depth [m] among the listed columns that the
    template references, and then appends the step: the depth [d] becomes
    [d + max(0, m - d) + 1]. It grows by exactly 1 if and only if no
    referenced column is deeper than the column itself. *)
Theorem C2_depth_grows_by_padding_plus_one
    ext p self func (col : vColumn) s0 p' :
  wf_column p self col s0 ->
  (forall c, c ∈ get_columns p ->
             Spec.referencesIdentifier func c = true -> quoted_in func c = true) ->
  vDCMATH.apply ext self func EmptyString p = (inr tt, p') ->
  let d := length (transformations col) in
  let m := referenced_depth p func in
  depth p self = Some d
  /\ (exists final,
        transformations <$> vcolumns p' !! self
        = Some (transformations col
                ++ replicate (m - d) ("{}", step_ctype s0, step_category s0)
                ++ [final])%list
        /\ step_func final = func)
  /\ depth p' self = Some (d + (m - d) + 1)%nat
  /\ (depth p' self = Some (S d) <-> (m <= d)%nat)
  /\ (forall q calls1 calls2 c d1,
        depth (run_calls ext calls1 q) c = Some d1 ->
        exists d2,
          depth (run_calls ext (calls1 ++ calls2) q) c = Some d2 /\ (d1 <= d2)%nat).
Proof.
  intros Hwf Hq Hrun d m.
  pose proof (apply_depth _ _ _ _ _ _ _ Hwf Hrun) as Hd. fold d in Hd.
  rewrite (quoted_depth_referenced p func Hq) in Hd. fold m in Hd.
  rewrite (apply_run ext p self func EmptyString col s0 Hwf) in Hrun.
  destruct (get_data_types _ _ _) as [e0|ct]; [done|]. cbn [truthy] in Hrun.
  injection Hrun as <-.
  split; [|split; [|split; [|split]]].
  - destruct Hwf as (E & _). unfold depth. by rewrite E.
  - exists (func, ct, to_category ext ct). split; [|done].
    unfold applied_frame. cbn. rewrite lookup_insert_eq. cbn.
    by rewrite (quoted_depth_referenced p func Hq).
  - rewrite Hd. f_equal. lia.
  - rewrite Hd. split; [intros [= H]; lia | intros H; f_equal; lia].
  - intros q0 calls1 calls2 c d1 H1. rewrite run_calls_app.
    apply (preserves_run_calls depth_grows ext calls2 _ depth_grows_stable
             preserves_add_to_history_depth c d1 H1).
Qed.

(** The claim C2 as it is stated fails: on the frame with [x] of depth 1
    and [y] of depth 3, applying [{} + "y"] to [x] succeeds and takes the
    depth of [x] from 1 to 4. *)
Lemma C2_counterexample :
  ~ (forall p self func p' d,
       vDCMATH.apply db self func EmptyString p = (inr tt, p') ->
       depth p self = Some d -> depth p' self = Some (S d)).
Proof.
  intros H.
  specialize (H frame_xy (q "x") ("{} + " +:+ q "y")
                (vDCMATH.apply db (q "x") ("{} + " +:+ q "y") EmptyString frame_xy).2
                1%nat).
  assert (Some 4%nat = Some 2%nat) as Habs; [|discriminate].
  etrans; [|apply H; by vm_compute]. by vm_compute.
Qed.

Lemma C2_witness :
  depth (vDCMATH.apply db (q "x") ("{} + " +:+ q "y") EmptyString frame_xy).2 (q "x")
  = Some 4%nat.
Proof.
  refine (proj1 (proj2 (proj2
    (C2_depth_grows_by_padding_plus_one db frame_xy (q "x") ("{} + " +:+ q "y")
       (mk_vColumn [raw "x"] 0) (raw "x") _ _ _ _)))).
  - repeat split; by vm_compute.
  - intros c Hc. vm_compute in Hc.
    apply list_elem_of_In in Hc. destruct Hc as [<-|[<-|[]]]; by vm_compute.
  - by vm_compute.
Defined.

(** ** C3: the chain of a column created by a copy *)

(** C3 (the code departs from the claim). The claim: a column created by
    [apply] with a copy name is first padded with identity steps up to the
    greatest depth among the columns that the template references, and
    then receives the step. On the frame with [x] of depth 1 and [y] of
    depth 3, the call [x.apply("{} + y", copy_name="z")] applies a
    template that references [y] as a free-standing word and [x] through
    the placeholder: the greatest referenced depth is 3. The loop of
    [apply] counts no column, because its test raises [NameError] (the
    defect of C1), and leaves [max_floor] at 0 whatever the collaborators
    are: no identity step is appended, and the new column [z] holds the
    chain of [x] and the step, depth 1 before the step and not 3. With the
    reference written in quoted form the same call pads [z] to depth 3. *)
Theorem C3_unquoted_reference_leaves_the_copy_unpadded (e : External) :
  let func := "{} + y" in
  let expr := py_replace "{}" (q "x") func in
  Spec.referencesIdentifier func (q "y") = true
  /\ Spec.referencesIdentifier expr (q "x") = true
  /\ referenced_depth frame_xy func = 3%nat
  /\ referenced_depth frame_xy expr = 3%nat
  /\ depth frame_xy (q "x") = Some 1%nat
  /\ vDCMATH.max_floor_loop e func (get_columns frame_xy) 0 frame_xy
     = (inr 0, frame_xy)
  /\ (vDCMATH.apply db (q "x") func "z" frame_xy).1 = inr tt
  /\ vcolumns (vDCMATH.apply db (q "x") func "z" frame_xy).2 !! q "z"
     = Some (mk_vColumn [raw "x"; (func, "int", "int")] 0)
  /\ vcolumns (vDCMATH.apply db (q "x") ("{} + " +:+ q "y") "z" frame_xy).2 !! q "z"
     = Some (mk_vColumn [raw "x"; ("{}", "int", "int"); ("{}", "int", "int");
                         ("{} + " +:+ q "y", "int", "int")] 0).
Proof.
  cbv zeta. do 5 (split; [by vm_compute|]). split.
  { rewrite (max_floor_loop_run e _ _ 0). by vm_compute. }
  repeat split; by vm_compute.
Qed.

(** ** C4: the cache after a transformation *)






(** ** C5: a call that fails *)

(** A failed probe is reported: the call raises, with the message of the
    probe's error at the head of its own. *)
Lemma failed_probe_is_raised ext p self func copy_name e0 :
  get_data_types ext
    (vDCMATH.probe_query ext p (py_replace "{}" self func) self)
    "apply_test_feature" = inl e0 ->
  vDCMATH.apply ext self func copy_name p
  = (inl (vDCMATH.query_error e0 (py_replace "{}" self func)
                              (py_replace dq EmptyString self)), p).
Proof.
  intros Hp. unfold vDCMATH.apply. cbv zeta.
  erewrite try_inl; [done|]. unfold vDCMATH.apply_body.
  erewrite bind_inl; [done|]. unfold vDCMATH.apply_update. rewrite bind_get.
  erewrite bind_inl; [done|]. unfold lift. by rewrite Hp.
Qed.

(** C5. When a call of [apply] on a column of the frame raises, the frame
    is the one before the call (no step, no cleared cache, no history
    entry, no new column), and the error reaches the caller as a
    [QueryError]. *)
Theorem C5_failed_apply_leaves_the_frame
    ext p self func copy_name (col : vColumn) s0 e p' :
  wf_column p self col s0 ->
  vDCMATH.apply ext self func copy_name p = (inl e, p') ->
  p' = p /\ exn_class e = "QueryError".
Proof.
  intros Hwf. rewrite (apply_run ext p self func copy_name col s0 Hwf).
  destruct (get_data_types _ _ _) as [e0|ct].
  - by intros [= <- <-].
  - destruct (truthy copy_name); [|done].
    destruct (vcolumns p !! quote_ident copy_name); [|done].
    by intros [= <- <-].
Qed.

Lemma C5_witness :
  exists e,
    vDCMATH.apply db (q "y") "NO_SUCH_FUNCTION({})" "z" frame_xy = (inl e, frame_xy)
    /\ exn_class e = "QueryError".
Proof.
  destruct (vDCMATH.apply db (q "y") "NO_SUCH_FUNCTION({})" "z" frame_xy)
    as [[e|[]] p'] eqn:Hrun; [|by vm_compute in Hrun].
  destruct (C5_failed_apply_leaves_the_frame db frame_xy (q "y")
              "NO_SUCH_FUNCTION({})" "z"
              (mk_vColumn [raw "y"; ("{} + 1", "int", "int");
                           ("{} * 2", "int", "int")] 1)
              ("{} * 2", "int", "int") e p') as [-> Hclass].
  - repeat split; by vm_compute.
  - exact Hrun.
  - by exists e.
Defined.

(** ** C6: templates and placeholder markers *)

(** The number of placeholder markers of a template. *)
Definition placeholders (func : string) : nat := py_count "{}" func.

(** Whatever makes [apply] raise reaches the caller as a [QueryError]. *)
Lemma apply_raises_QueryError ext p self func copy_name e p' :
  vDCMATH.apply ext self func copy_name p = (inl e, p') ->
  exn_class e = "QueryError".
Proof.
  unfold vDCMATH.apply, try_except. cbv zeta.
  destruct (vDCMATH.apply_body _ _ _ _ _ _ _) as [[e0|[]] p0]; [|done].
  by intros [= <- _].
Qed.

(** C6 (amended). [apply] does not look at the number of placeholder
    markers of the template: for every template, with no marker, one or
    several, the call on a column of the frame succeeds as soon as the
    probe of the substituted expression succeeds, and the step is appended
    with the template as it was given. No error of the kind [InvalidStep]
    exists: a call that raises raises [QueryError]. *)
Theorem C6_placeholders_are_not_checked
    ext p self func (col : vColumn) s0 ct :
  wf_column p self col s0 ->
  get_data_types ext
    (vDCMATH.probe_query ext p (py_replace "{}" self func) self)
    "apply_test_feature" = inr ct ->
  (exists p' col',
     vDCMATH.apply ext self func EmptyString p = (inr tt, p')
     /\ vcolumns p' !! self = Some col'
     /\ last (transformations col') = Some (func, ct, to_category ext ct))
  /\ (forall copy_name e p',
        vDCMATH.apply ext self func copy_name p = (inl e, p') ->
        exn_class e = "QueryError").
Proof.
  intros Hwf Hp. split; [|intros; by eapply apply_raises_QueryError].
  rewrite (apply_run ext p self func EmptyString col s0 Hwf), Hp. cbn [truthy].
  eexists _, _. split; [done|]. unfold applied_frame. cbn.
  rewrite lookup_insert_eq. split; [done|]. cbn.
  by rewrite app_assoc, last_snoc.
Qed.

(** The claim C6 as it is stated fails: the template [1] has no placeholder
    marker and the call succeeds. *)
Lemma C6_counterexample :
  ~ (forall p self func,
       placeholders func <> 1%nat ->
       exists e p',
         vDCMATH.apply db self func EmptyString p = (inl e, p')
         /\ exn_class e = "InvalidStep").
Proof.
  intros H. destruct (H frame_xy (q "x") "1") as (e & p' & Hrun & _).
  - by vm_compute.
  - by vm_compute in Hrun.
Qed.

Lemma C6_witness :
  placeholders "{} + {}" = 2%nat
  /\ exists p' col',
       vDCMATH.apply db (q "x") "{} + {}" EmptyString frame_xy = (inr tt, p')
       /\ vcolumns p' !! q "x" = Some col'
       /\ last (transformations col') = Some ("{} + {}", "int", "int").
Proof.
  split; [by vm_compute|].
  refine (proj1 (C6_placeholders_are_not_checked db frame_xy (q "x") "{} + {}"
                   (mk_vColumn [raw "x"] 0) (raw "x") "int" _ _)).
  - repeat split; by vm_compute.
  - by vm_compute.
Defined.

(** ** C7: the helper columns of [analytic] *)

Lemma in_tuple_elem_of x l : in_tuple x l = true <-> x ∈ l.
Proof.
  unfold in_tuple. rewrite existsb_exists. split.
  - intros (y & Hy & E). apply String.eqb_eq in E. subst.
    by apply list_elem_of_In.
  - intros H. exists x. split; [by apply list_elem_of_In | apply String.eqb_refl].
Qed.

Lemma excluded_not_listed p x :
  x ∈ exclude_columns p -> x ∉ get_columns p.
Proof.
  intros Hx Hin. unfold get_columns in Hin.
  apply list_elem_of_In, filter_In in Hin. destruct Hin as [_ Hn].
  apply in_tuple_elem_of in Hx. by rewrite Hx in Hn.
Qed.

Lemma exclude_run l p1 p' x :
  vDFMATH.exclude l p1 = (inr tt, p') -> x ∈ l ->
  x ∈ exclude_columns p' /\ x ∉ get_columns p'.
Proof.
  intros [= <-] Hx.
  assert (x ∈ exclude_columns (set_exclude_columns (exclude_columns p1 ++ l) p1)) as H.
  { cbn. apply elem_of_app. by right. }
  split; [done | by apply excluded_not_listed].
Qed.

(** C7. After a successful call of [analytic] whose function, once
    normalised, is [kurtosis], [skewness] or [jb], the quoted names of the
    mean, std and count helper columns are in the exclude list of the
    frame; for [aad] the mean helper is, for [mad] the median helper. The
    default listing of the columns therefore leaves them out. This holds
    whatever [eval] and the other collaborators do. *)
Theorem C7_helper_columns_are_excluded
    ext func columns by_ order_by name offset x_smoothing add_count random_nb
    p p' cols bys :
  vDFMATH.analytic ext func columns by_ order_by name offset x_smoothing
                   add_count random_nb p = (inr tt, p') ->
  format_colnames ext p columns by_ = inr (cols, bys) ->
  let f := verticapy_agg_name ext (py_lower (py_lower func)) in
  let helper kind :=
    quote_ident (vDFMATH.helper_name (default EmptyString (cols !! 0%nat))
                                     kind random_nb) in
  let excluded x := x ∈ exclude_columns p' /\ x ∉ get_columns p' in
  (f ∈ ["kurtosis"; "skewness"; "jb"] ->
   excluded (helper "mean") /\ excluded (helper "std") /\ excluded (helper "count"))
  /\ (f = "aad" -> excluded (helper "mean"))
  /\ (f = "mad" -> excluded (helper "median")).
Proof.
  intros Hrun Hfmt f helper excluded.
  unfold vDFMATH.analytic in Hrun. rewrite bind_get in Hrun.
  erewrite bind_inr in Hrun; [|unfold lift; by rewrite Hfmt].
  cbv zeta in Hrun. cbn [fst snd] in Hrun.
  apply bind_success in Hrun as (name' & p0 & _ & Hrun).
  apply bind_success in Hrun as ([] & p1 & _ & Hrun).
  fold f in Hrun. fold (helper "mean") (helper "std") (helper "count")
    (helper "median") in Hrun.
  split; [|split].
  - intros Hf. apply in_tuple_elem_of in Hf. rewrite Hf in Hrun.
    repeat split; eapply exclude_run; try exact Hrun;
      rewrite !elem_of_cons; auto.
  - intros Hf. rewrite Hf in Hrun. cbn in Hrun.
    eapply exclude_run; [exact Hrun|]. apply list_elem_of_here.
  - intros Hf. rewrite Hf in Hrun. cbn in Hrun.
    eapply exclude_run; [exact Hrun|]. apply list_elem_of_here.
Qed.

Lemma C7_witness :
  exists p',
    vDFMATH.analytic db "kurtosis" ["x"] [] [] "k" "1" "0.5" true 42 frame_xy
    = (inr tt, p')
    /\ columns p' = [q "x"; q "y"; q "x_mean_42"; q "x_std_42"; q "x_count_42"; q "k"]
    /\ q "x_mean_42" ∈ exclude_columns p'
    /\ q "x_mean_42" ∉ get_columns p'.
Proof.
  destruct (vDFMATH.analytic db "kurtosis" ["x"] [] [] "k" "1" "0.5" true 42 frame_xy)
    as [[e|[]] p'] eqn:Hrun; [by vm_compute in Hrun|].
  exists p'. split; [done|]. split.
  { vm_compute in Hrun. by injection Hrun as <-. }
  destruct (C7_helper_columns_are_excluded db "kurtosis" ["x"] [] [] "k" "1" "0.5"
              true 42 frame_xy p' [q "x"] [] Hrun eq_refl) as [H _].
  destruct H as [H _].
  - rewrite !elem_of_cons. by left.
  - exact H.
Defined.

(** ** C8: the history log *)

(** C8. A successful call of [apply] appends exactly one entry to the
    history log, the sentence that names the column and the substituted
    expression; a call that raises leaves the log as it was; and along
    any sequence of calls the log only grows at its end, so that no entry
    is ever removed or modified. *)
Theorem C8_history_is_append_only ext p self func copy_name r p' :
  vDCMATH.apply ext self func copy_name p = (r, p') ->
  match r with
  | inr _ =>
      history p'
      = (history p ++ [vDCMATH.history_entry (py_replace dq EmptyString self)
                                             (py_replace "{}" self func)])%list
  | inl _ => history p' = history p
  end
  /\ forall calls, history p `prefix_of` history (run_calls ext calls p').
Proof.
  intros Hrun.
  assert (match r with
          | inr _ =>
              history p'
              = (history p ++ [vDCMATH.history_entry (py_replace dq EmptyString self)
                                                     (py_replace "{}" self func)])%list
          | inl _ => history p' = history p
          end) as Hstep.
  { revert Hrun. unfold vDCMATH.apply, try_except, vDCMATH.apply_body, bind.
    cbv zeta.
    pose proof (preserves_apply_update same_history same_history_stable ext self
                  func copy_name (py_replace "{}" self func) p) as Hs.
    unfold same_history in Hs.
    destruct (vDCMATH.apply_update _ _ _ _ _ _) as [[e|[]] p1]; cbn in Hs.
    - by intros [= <- <-].
    - intros [= <- <-]. cbn. by rewrite Hs. }
  split; [done|]. intros calls.
  trans (history p').
  - destruct r; rewrite Hstep; [done | by apply prefix_app_r].
  - apply (preserves_run_calls history_grows ext calls p' history_grows_stable
             preserves_add_to_history_grows).
Qed.

Lemma C8_witness :
  history (vDCMATH.apply db (q "x") "ABS({})" EmptyString frame_xy).2
  = ["[Apply]: The vColumn 'x' was transformed with the func 'x -> ABS("
     +:+ q "x" +:+ ")'."].
Proof.
  refine (proj1 (C8_history_is_append_only db frame_xy (q "x") "ABS({})" EmptyString
                   (inr tt) _ _)).
  by vm_compute.
Defined.

(** ** C9: the catalog of a copy *)



(** ** C10: the two length operations *)

Lemma apply_fun_expr_len cat func x :
  cat <> "vmap" -> cat <> "complex" -> func = "len" \/ func = "length" ->
  vDCMATH.apply_fun_name cat func = "LENTGH"
  /\ vDCMATH.apply_fun_expr cat func x = "LENTGH({})".
Proof.
  intros Hv Hc Hf. apply String.eqb_neq in Hv, Hc.
  assert (vDCMATH.apply_fun_name cat func = "LENTGH") as Hn.
  { unfold vDCMATH.apply_fun_name. destruct Hf as [-> | ->]; cbn; by rewrite Hv, Hc. }
  split; [done|]. unfold vDCMATH.apply_fun_expr. by rewrite Hn.
Qed.

Lemma get_len_fun_scalar cat :
  cat <> "vmap" -> cat <> "complex" -> vDCMATH.get_len_fun cat = "LENGTH".
Proof.
  intros Hv Hc. apply String.eqb_neq in Hv, Hc.
  unfold vDCMATH.get_len_fun. by rewrite Hv, Hc.
Qed.

Lemma category_run p self col s0 :
  vcolumns p !! self = Some col -> last (transformations col) = Some s0 ->
  category self p = (inr (step_category s0), p).
Proof.
  intros E L. unfold category.
  by erewrite bind_inr; [|by eapply last_step_run].
Qed.

(** A string occurs in every string that holds it. *)
Lemma py_in_prefix w s : String.prefix w s = true -> py_in w s = true.
Proof. intros H. destruct s; cbn [py_in]; by rewrite H. Qed.

Lemma prefix_append w b : String.prefix w (w +:+ b) = true.
Proof.
  induction w as [|c w IH]; [by destruct b|].
  change (String.prefix (String c w) (String c (w +:+ b)) = true).
  cbn [String.prefix]. by destruct (ascii_dec c c).
Qed.

Lemma py_in_append_r w a s : py_in w s = true -> py_in w (a +:+ s) = true.
Proof.
  intros H. induction a as [|c a IH]; [done|].
  change (py_in w (String c (a +:+ s)) = true). cbn [py_in].
  rewrite IH. by destruct (String.prefix w (String c (a +:+ s))).
Qed.

(** C10. On a column whose category is neither [vmap] nor [complex],
    [apply_fun] with [len] or [length] appends, when it succeeds, a step
    whose expression is [LENTGH({})], while [get_len] on the same column
    builds its query with [LENGTH]: the query that it returns selects
    [LENGTH(column)] under the new alias. The two operations never name
    the same SQL function. *)
Theorem C10_length_names_differ
    ext p self func x init (col : vColumn) s0 p' :
  wf_column p self col s0 ->
  step_category s0 <> "vmap" -> step_category s0 <> "complex" ->
  func = "len" \/ func = "length" ->
  vDCMATH.apply_fun ext self func x p = (inr tt, p') ->
  (exists col' ct cat,
     vcolumns p' !! self = Some col'
     /\ last (transformations col') = Some ("LENTGH({})", ct, cat))
  /\ vDCMATH.get_len_fun (step_category s0) = "LENGTH"
  /\ vDCMATH.get_len_elem (step_category s0) self = "LENGTH(" +:+ self +:+ ")"
  /\ vDCMATH.apply_fun_name (step_category s0) func
     <> vDCMATH.get_len_fun (step_category s0)
  /\ (exists query,
        vDCMATH.get_len ext self init p
        = (inr (query, vDCMATH.get_len_alias self, "LENGTH(" +:+ init +:+ ")"), p)
        /\ query = vDCMATH.get_len_query ext p (step_category s0) self
        /\ query
           = nl +:+ sp 12 +:+ "(SELECT " +:+
             nl +:+ sp 16 +:+ ("LENGTH(" +:+ self +:+ ")") +:+ " AS "
                +:+ vDCMATH.get_len_alias self +:+ " " +:+
             nl +:+ sp 12 +:+ "FROM " +:+ genSQL ext p +:+ ") VERTICAPY_SUBTABLE"
        /\ py_in ("LENGTH(" +:+ self +:+ ")") query = true).
Proof.
  intros Hwf Hv Hc Hf Hrun.
  destruct (apply_fun_expr_len _ _ x Hv Hc Hf) as [Hn He].
  pose proof (get_len_fun_scalar _ Hv Hc) as Hg.
  assert (vDCMATH.get_len_query ext p (step_category s0) self
          = nl +:+ sp 12 +:+ "(SELECT " +:+
            nl +:+ sp 16 +:+ ("LENGTH(" +:+ self +:+ ")") +:+ " AS "
               +:+ vDCMATH.get_len_alias self +:+ " " +:+
            nl +:+ sp 12 +:+ "FROM " +:+ genSQL ext p +:+ ") VERTICAPY_SUBTABLE")
    as Hquery.
  { unfold vDCMATH.get_len_query, vDCMATH.get_len_elem. by rewrite Hg. }
  split; [|split; [done|split; [|split]]].
  - unfold vDCMATH.apply_fun in Hrun.
    destruct Hwf as (E & L & Hq).
    erewrite bind_inr in Hrun; [|by eapply category_run].
    rewrite He in Hrun.
    rewrite (apply_run ext p self "LENTGH({})" EmptyString col s0) in Hrun
      by done.
    destruct (get_data_types _ _ _) as [e0|ct]; [done|]. cbn [truthy] in Hrun.
    injection Hrun as <-. eexists _, ct, (to_category ext ct).
    unfold applied_frame. cbn. rewrite lookup_insert_eq. split; [done|]. cbn.
    by rewrite app_assoc, last_snoc.
  - unfold vDCMATH.get_len_elem. by rewrite Hg.
  - by rewrite Hn, Hg.
  - eexists. split; [|split; [reflexivity|split; [exact Hquery|]]].
    + destruct Hwf as (E & L & Hq). unfold vDCMATH.get_len.
      erewrite bind_inr; [|by eapply category_run]. cbv zeta.
      rewrite bind_get, Hg. reflexivity.
    + rewrite Hquery. do 5 apply py_in_append_r.
      apply py_in_prefix, prefix_append.
Qed.

Lemma C10_witness :
  exists col',
    vcolumns (vDCMATH.apply_fun db (q "y") "length" (vDCMATH.ArgNum "2") frame_xy).2
      !! q "y" = Some col'
    /\ last (transformations col') = Some ("LENTGH({})", "int", "int")
    /\ vDCMATH.get_len_elem "int" (q "y") = "LENGTH(" +:+ q "y" +:+ ")"
    /\ exists query,
         vDCMATH.get_len db (q "y") (q "y") frame_xy
         = (inr (query, q "y.length", "LENGTH(" +:+ q "y" +:+ ")"), frame_xy)
         /\ py_in ("LENGTH(" +:+ q "y" +:+ ")") query = true.
Proof.
  destruct (C10_length_names_differ db frame_xy (q "y") "length"
              (vDCMATH.ArgNum "2") (q "y")
              (mk_vColumn [raw "y"; ("{} + 1", "int", "int");
                           ("{} * 2", "int", "int")] 1)
              ("{} * 2", "int", "int")
              (vDCMATH.apply_fun db (q "y") "length" (vDCMATH.ArgNum "2") frame_xy).2)
    as ((col' & ct & cat & H1 & H2) & _ & H3 & _ & (query & H4 & _ & _ & H5)).
  - repeat split; by vm_compute.
  - done.
  - done.
  - by right.
  - by vm_compute.
  - exists col'. split; [exact H1|]. split; [|split; [exact H3|]].
    + vm_compute in H1. injection H1 as <-. by vm_compute.
    + exists query. split; [exact H4 | exact H5].
Defined.

(** * Further properties of the code *)

(** ** Characters of a string *)

(** The character [c] occurs in [s]. *)
Fixpoint has_char (c : ascii) (s : string) : bool :=
  match s with
  | EmptyString => false
  | String a s' => (Ascii.eqb a c || has_char c s')%bool
  end.

Lemma has_char_app c a b :
  has_char c (a +:+ b) = (has_char c a || has_char c b)%bool.
Proof.
  induction a as [|x a IH]; [done|].
  simpl. rewrite IH. by rewrite orb_assoc.
Qed.

Lemma prefix_head a t b s :
  Ascii.eqb b a = false -> String.prefix (String a t) (String b s) = false.
Proof.
  intros H. cbn. destruct (ascii_dec a b) as [->|]; [|done].
  by rewrite Ascii.eqb_refl in H.
Qed.

(** A string that starts with a character absent from [s] does not occur
    in [s]. *)
Lemma py_in_head a t s : has_char a s = false -> py_in (String a t) s = false.
Proof.
  induction s as [|b s IH]; [done|]. cbn [has_char py_in].
  intros H. apply orb_false_elim in H as [Hb Hs].
  rewrite prefix_head by done. by apply IH.
Qed.

(** The character of code 34, the double quote. *)
Definition dq_char : ascii := ascii_of_nat 34.

(** A template without double quote contains the quoted form of no
    alias. *)
Lemma quoted_in_plain func c : has_char dq_char func = false -> quoted_in func c = false.
Proof. intros H. unfold quoted_in, quote_ident. by apply py_in_head. Qed.

Definition is_digit_or_minus (c : ascii) : bool :=
  let n := nat_of_ascii c in
  ((Nat.leb 48 n && Nat.leb n 57) || Nat.eqb n 45)%bool.

Lemma eqb_digit a c :
  is_digit_or_minus a = true -> is_digit_or_minus c = false -> Ascii.eqb a c = false.
Proof.
  intros Ha Hc. destruct (Ascii.eqb_spec a c) as [->|]; [|done]. congruence.
Qed.

Lemma has_char_string_of_uint c d :
  is_digit_or_minus c = false ->
  has_char c (DecimalString.NilEmpty.string_of_uint d) = false.
Proof.
  intros Hc. induction d as [|d IH|d IH|d IH|d IH|d IH|d IH|d IH|d IH|d IH|d IH];
    [done|..]; cbn [DecimalString.NilEmpty.string_of_uint has_char];
    rewrite IH, orb_false_r; by apply eqb_digit.
Qed.

(** The rendering of an integer holds digits and a minus sign only. *)
Lemma has_char_str_int c z :
  is_digit_or_minus c = false -> has_char c (str_int z) = false.
Proof.
  intros Hc.
  assert (forall d, has_char c (DecimalString.NilZero.string_of_uint d) = false)
    as Hu.
  { intros d. unfold DecimalString.NilZero.string_of_uint.
    destruct d; try (by apply has_char_string_of_uint).
    cbn [has_char]. rewrite orb_false_r. by apply eqb_digit. }
  unfold str_int, DecimalString.NilZero.string_of_int.
  destruct (Z.to_int z) as [d|d]; [apply Hu|].
  cbn [has_char]. rewrite Hu, orb_false_r. by apply eqb_digit.
Qed.

(** ** The alignment of depths by [apply] *)

Lemma max_depth_where_acc test p cols acc :
  (acc <= max_depth_where test p cols acc)%nat.
Proof.
  revert acc. induction cols as [|c cols IH]; intros acc; [done|]. cbn.
  etrans; [|apply IH].
  destruct (test c); [|done]. destruct (depth p (quote_ident c)); lia.
Qed.

Lemma max_depth_where_ge test p cols acc c d :
  c ∈ cols -> test c = true -> depth p (quote_ident c) = Some d ->
  (d <= max_depth_where test p cols acc)%nat.
Proof.
  revert acc. induction cols as [|c' cols IH]; intros acc Hin Ht Hd.
  - by apply elem_of_nil in Hin.
  - cbn. apply elem_of_cons in Hin as [->|Hin]; [|by apply IH].
    rewrite Ht, Hd. etrans; [|apply max_depth_where_acc]. lia.
Qed.

Lemma max_depth_where_none test p cols acc :
  (forall c, c ∈ cols -> test c = false) ->
  max_depth_where test p cols acc = acc.
Proof.
  revert acc. induction cols as [|c cols IH]; intros acc H; [done|]. cbn.
  rewrite (H c) by apply list_elem_of_here.
  apply IH. intros c' Hc'. apply H. by apply list_elem_of_further.
Qed.

(** After a successful call of [apply] without copy name, the column is
    strictly deeper than it was, and strictly deeper than every other
    listed column whose quoted alias occurs in the template: in the nested
    query, the step finds each of these columns one level below it. *)
Theorem apply_in_place_aligns_the_depths
    ext p self func (col : vColumn) s0 p' :
  wf_column p self col s0 ->
  vDCMATH.apply ext self func EmptyString p = (inr tt, p') ->
  exists d',
    depth p' self = Some d'
    /\ (length (transformations col) < d')%nat
    /\ forall c d,
         c ∈ get_columns p' -> quoted_in func c = true ->
         quote_ident c <> self -> depth p' (quote_ident c) = Some d ->
         (d < d')%nat.
Proof.
  intros Hwf Hrun.
  rewrite (apply_run ext p self func EmptyString col s0 Hwf) in Hrun.
  destruct (get_data_types _ _ _) as [e0|ct]; [done|]. cbn [truthy] in Hrun.
  injection Hrun as <-. eexists. split; [|split].
  - unfold depth, applied_frame. cbn. by rewrite lookup_insert_eq.
  - cbn. rewrite !length_app, length_replicate. cbn. lia.
  - intros c d Hc Hq Hne. unfold depth at 1, applied_frame. cbn.
    rewrite lookup_insert_ne by done. intros Hd.
    pose proof (max_depth_where_ge (quoted_in func) p (get_columns p) 0 c d Hc Hq Hd)
      as Hle.
    fold (quoted_depth p func) in Hle.
    rewrite !length_app, length_replicate. cbn. lia.
Qed.

Lemma apply_in_place_aligns_the_depths_witness :
  exists d',
    depth (vDCMATH.apply db (q "x") ("{} + " +:+ q "y") EmptyString frame_xy).2 (q "x")
    = Some d'
    /\ (3 < d')%nat.
Proof.
  destruct (apply_in_place_aligns_the_depths db frame_xy (q "x") ("{} + " +:+ q "y")
              (mk_vColumn [raw "x"] 0) (raw "x")
              (vDCMATH.apply db (q "x") ("{} + " +:+ q "y") EmptyString frame_xy).2)
    as (d' & Hd' & _ & H).
  - repeat split; by vm_compute.
  - by vm_compute.
  - exists d'. split; [exact Hd'|].
    apply (H (q "y") 3%nat).
    + vm_compute. apply list_elem_of_further, list_elem_of_here.
    + by vm_compute.
    + by vm_compute.
    + by vm_compute.
Defined.

(** After a successful call of [apply] with a copy name, the new column
    is strictly deeper than the source column and than every listed
    column whose quoted alias occurs in the template, and the source
    column and all the other columns are as they were. *)
Theorem apply_copy_aligns_the_depths
    ext p self func copy_name (col : vColumn) s0 p' :
  wf_column p self col s0 ->
  truthy copy_name = true ->
  vDCMATH.apply ext self func copy_name p = (inr tt, p') ->
  exists d',
    depth p' (quote_ident copy_name) = Some d'
    /\ depth p (quote_ident copy_name) = None
    /\ (length (transformations col) < d')%nat
    /\ (forall c d,
          c ∈ get_columns p -> quoted_in func c = true ->
          depth p (quote_ident c) = Some d -> (d < d')%nat)
    /\ (forall c, c <> quote_ident copy_name -> vcolumns p' !! c = vcolumns p !! c).
Proof.
  intros Hwf Ht Hrun.
  rewrite (apply_run ext p self func copy_name col s0 Hwf), Ht in Hrun.
  destruct (get_data_types _ _ _) as [e0|ct]; [done|].
  destruct (vcolumns p !! quote_ident copy_name) eqn:Hk; [done|].
  injection Hrun as <-. eexists. split; [|split; [|split; [|split]]].
  - unfold depth, copied_frame. cbn. by rewrite lookup_insert_eq.
  - unfold depth. by rewrite Hk.
  - cbn. rewrite !length_app, length_replicate. cbn. lia.
  - intros c d Hc Hq Hd.
    pose proof (max_depth_where_ge (quoted_in func) p (get_columns p) 0 c d Hc Hq Hd)
      as Hle.
    fold (quoted_depth p func) in Hle. cbn.
    rewrite !length_app, length_replicate. cbn. lia.
  - intros c Hne. unfold copied_frame. cbn. by rewrite lookup_insert_ne.
Qed.

Lemma apply_copy_aligns_the_depths_witness :
  exists d',
    depth (vDCMATH.apply db (q "x") ("{} + " +:+ q "y") "z" frame_xy).2 (q "z")
    = Some d'
    /\ (3 < d')%nat.
Proof.
  destruct (apply_copy_aligns_the_depths db frame_xy (q "x") ("{} + " +:+ q "y") "z"
              (mk_vColumn [raw "x"] 0) (raw "x")
              (vDCMATH.apply db (q "x") ("{} + " +:+ q "y") "z" frame_xy).2)
    as (d' & Hd' & _ & _ & H & _).
  - repeat split; by vm_compute.
  - done.
  - by vm_compute.
  - exists d'. split; [exact Hd'|].
    apply (H (q "y") 3%nat).
    + vm_compute. apply list_elem_of_further, list_elem_of_here.
    + by vm_compute.
    + by vm_compute.
Defined.

(** The chain of a column created by [apply] with a copy name: the chain
    of the source column, then identity steps [("{}", type, category)] of
    the source column's current type and category, then the step, made of
    the template as it was given and of the type that the probe returned.
    The identity steps bring the chain to the greater of the depth of the
    source column and of the greatest depth [m] among the listed columns
    whose quoted alias occurs in the template; when the template names in
    quoted form every column that it references, [m] is the greatest
    depth among the listed columns that the template references. The new
    column holds the catalog of the source column. *)
Theorem apply_copy_pads_the_source_chain
    ext p self func copy_name (col : vColumn) s0 p' :
  wf_column p self col s0 ->
  truthy copy_name = true ->
  vDCMATH.apply ext self func copy_name p = (inr tt, p') ->
  let d := length (transformations col) in
  let m := quoted_depth p func in
  let pad := replicate (m - d) ("{}", step_ctype s0, step_category s0) in
  (exists ct,
     get_data_types ext
       (vDCMATH.probe_query ext p (py_replace "{}" self func) self)
       "apply_test_feature" = inr ct
     /\ vcolumns p' !! quote_ident copy_name
        = Some (mk_vColumn
                  (transformations col ++ pad ++ [(func, ct, to_category ext ct)])
                  (catalog col)))
  /\ length (transformations col ++ pad) = Nat.max d m
  /\ ((forall c, c ∈ get_columns p ->
                 Spec.referencesIdentifier func c = true -> quoted_in func c = true) ->
      m = referenced_depth p func).
Proof.
  intros Hwf Ht Hrun d m pad.
  rewrite (apply_run ext p self func copy_name col s0 Hwf), Ht in Hrun.
  destruct (get_data_types _ _ _) as [e0|ct]; [done|].
  destruct (vcolumns p !! quote_ident copy_name); [done|].
  injection Hrun as <-. split; [|split].
  - exists ct. split; [done|]. unfold copied_frame. cbn.
    by rewrite lookup_insert_eq.
  - unfold pad. rewrite length_app, length_replicate. lia.
  - apply quoted_depth_referenced.
Qed.

Lemma apply_copy_pads_the_source_chain_witness :
  vcolumns (vDCMATH.apply db (q "y") ("{} + " +:+ q "x") "z" frame_xy).2 !! q "z"
  = Some (mk_vColumn [raw "y"; ("{} + 1", "int", "int"); ("{} * 2", "int", "int");
                      ("{} + " +:+ q "x", "int", "int")] 1)
  /\ exists ct,
       vcolumns (vDCMATH.apply db (q "x") ("{} + " +:+ q "y") "z" frame_xy).2 !! q "z"
       = Some (mk_vColumn
                 ([raw "x"] ++ replicate 2 ("{}", "int", "int")
                  ++ [("{} + " +:+ q "y", ct, to_category db ct)]) 0).
Proof.
  split; [by vm_compute|].
  destruct (apply_copy_pads_the_source_chain db frame_xy (q "x") ("{} + " +:+ q "y")
              "z" (mk_vColumn [raw "x"] 0) (raw "x")
              (vDCMATH.apply db (q "x") ("{} + " +:+ q "y") "z" frame_xy).2)
    as ((ct & _ & H) & _).
  - repeat split; by vm_compute.
  - done.
  - by vm_compute.
  - exists ct. exact H.
Defined.

(** A call of [apply] without copy name, successful or not, leaves the
    column list, the exclude list and every other column object of the
    frame as they were, and keeps every catalog dict that existed. *)
Theorem apply_in_place_touches_one_column
    ext p self func (col : vColumn) s0 r p' :
  wf_column p self col s0 ->
  vDCMATH.apply ext self func EmptyString p = (r, p') ->
  columns p' = columns p
  /\ exclude_columns p' = exclude_columns p
  /\ (forall c, c <> self -> vcolumns p' !! c = vcolumns p !! c)
  /\ dicts p `prefix_of` dicts p'.
Proof.
  intros Hwf Hrun.
  rewrite (apply_run ext p self func EmptyString col s0 Hwf) in Hrun.
  destruct (get_data_types _ _ _) as [e0|ct]; cbn [truthy] in Hrun;
    injection Hrun as <- <-.
  - done.
  - repeat split; [|by apply prefix_app_r].
    intros c Hne. unfold applied_frame. cbn. by rewrite lookup_insert_ne.
Qed.

Lemma apply_in_place_touches_one_column_witness :
  vcolumns (vDCMATH.apply db (q "x") "ABS({})" EmptyString frame_xy).2 !! q "y"
  = vcolumns frame_xy !! q "y".
Proof.
  refine (proj1 (proj2 (proj2
    (apply_in_place_touches_one_column db frame_xy (q "x") "ABS({})"
       (mk_vColumn [raw "x"] 0) (raw "x") _ _ _ eq_refl))) (q "y") _).
  - repeat split; by vm_compute.
  - by vm_compute.
Defined.

(** A template without double quote names no column in quoted form: a
    successful call without copy name then appends the step and nothing
    else, whatever the depths of the other columns. *)
Theorem apply_plain_template_appends_one_step
    ext p self func (col : vColumn) s0 p' :
  wf_column p self col s0 ->
  has_char dq_char func = false ->
  vDCMATH.apply ext self func EmptyString p = (inr tt, p') ->
  exists ct,
    vcolumns p' !! self
    = Some (mk_vColumn (transformations col ++ [(func, ct, to_category ext ct)])
                       (length (dicts p))).
Proof.
  intros Hwf Hplain Hrun.
  rewrite (apply_run ext p self func EmptyString col s0 Hwf) in Hrun.
  destruct (get_data_types _ _ _) as [e0|ct]; [done|]. cbn [truthy] in Hrun.
  injection Hrun as <-. exists ct. unfold applied_frame. cbn.
  rewrite lookup_insert_eq. unfold quoted_depth.
  rewrite max_depth_where_none; [done|].
  intros c _. by apply quoted_in_plain.
Qed.

Lemma apply_plain_template_appends_one_step_witness :
  exists ct,
    vcolumns (vDCMATH.apply db (q "x") "{} + y" EmptyString frame_xy).2 !! q "x"
    = Some (mk_vColumn ([raw "x"] ++ [("{} + y", ct, to_category db ct)]) 2).
Proof.
  refine (apply_plain_template_appends_one_step db frame_xy (q "x") "{} + y"
            (mk_vColumn [raw "x"] 0) (raw "x") _ _ _ _).
  - repeat split; by vm_compute.
  - by vm_compute.
  - by vm_compute.
Defined.

(** ** The string literal of [apply_fun] *)

Lemma prefix_cons a t b s :
  String.prefix (String a t) (String b s) = (Ascii.eqb b a && String.prefix t s)%bool.
Proof.
  cbn [String.prefix]. destruct (ascii_dec a b) as [->|Hne].
  - by rewrite Ascii.eqb_refl.
  - apply not_eq_sym, Ascii.eqb_neq in Hne. by rewrite Hne.
Qed.

Lemma prefix_nil s : String.prefix EmptyString s = true.
Proof. by destruct s. Qed.

Lemma escape_cons c s :
  py_replace "'" "''" (String c s)
  = if Ascii.eqb c "'" then "''" +:+ py_replace "'" "''" s
    else String c (py_replace "'" "''" s).
Proof.
  unfold py_replace. cbn [replace_from].
  rewrite prefix_cons, prefix_nil, andb_true_r. done.
Qed.

Lemma unescape_cons c s :
  py_replace "''" "'" (String c s)
  = match s with
    | String c' s' =>
        if (Ascii.eqb c "'" && Ascii.eqb c' "'")%bool
        then "'" +:+ py_replace "''" "'" s'
        else String c (py_replace "''" "'" s)
    | EmptyString => String c EmptyString
    end.
Proof.
  unfold py_replace. cbn [replace_from]. rewrite prefix_cons.
  destruct s as [|c' s'].
  - cbn [String.prefix]. by rewrite andb_false_r.
  - rewrite prefix_cons, prefix_nil, andb_true_r.
    by destruct (Ascii.eqb c "'" && Ascii.eqb c' "'")%bool.
Qed.

(** Doubling the single quotes and halving them again gives the string
    back. *)
Lemma unescape_escape s : py_replace "''" "'" (py_replace "'" "''" s) = s.
Proof.
  induction s as [|c s IH]; [done|]. rewrite escape_cons.
  destruct (Ascii.eqb_spec c "'") as [->|Hne].
  - change ("''" +:+ py_replace "'" "''" s)
      with (String "'" (String "'" (py_replace "'" "''" s))).
    rewrite unescape_cons. cbn [Ascii.eqb andb]. cbn. by rewrite IH.
  - rewrite unescape_cons.
    destruct (py_replace "'" "''" s) as [|c' t] eqn:E.
    + by rewrite <- IH.
    + apply Ascii.eqb_neq in Hne. rewrite Hne. cbn [andb]. by rewrite IH.
Qed.

Lemma append_assoc a b c : (a +:+ b) +:+ c = a +:+ (b +:+ c).
Proof.
  induction a as [|x a IH]; [done|].
  change (String x ((a +:+ b) +:+ c) = String x (a +:+ (b +:+ c))).
  by rewrite IH.
Qed.

(** The way SQL reads a string literal, from the character after the
    opening quote: two single quotes in a row stand for one quote of the
    string, a single quote alone closes the literal. The result is the
    string read and the text after the closing quote; there is none when
    the literal is never closed. *)
Fixpoint read_literal (t : string) : option (string * string) :=
  match t with
  | EmptyString => None
  | String c t' =>
      if Ascii.eqb c "'" then
        match t' with
        | String c' t'' =>
            if Ascii.eqb c' "'"
            then (fun r => (String "'" r.1, r.2)) <$> read_literal t''
            else Some (EmptyString, t')
        | EmptyString => Some (EmptyString, EmptyString)
        end
      else (fun r => (String c r.1, r.2)) <$> read_literal t'
  end.

(** The string with its quotes doubled, followed by a closing quote, is
    read back as the string, whatever follows that does not start with a
    quote. *)
Lemma read_literal_escape s c rest :
  Ascii.eqb c "'" = false ->
  read_literal (py_replace "'" "''" s +:+ String "'" (String c rest))
  = Some (s, String c rest).
Proof.
  intros Hc. induction s as [|a s IH].
  - change (read_literal (String "'" (String c rest))
            = Some (EmptyString, String c rest)).
    cbn [read_literal]. cbn [Ascii.eqb Bool.eqb]. by rewrite Hc.
  - rewrite escape_cons. destruct (Ascii.eqb a "'") eqn:Ha.
    + apply Ascii.eqb_eq in Ha as ->.
      change (read_literal
                (String "'" (String "'"
                   (py_replace "'" "''" s +:+ String "'" (String c rest))))
              = Some (String "'" s, String c rest)).
      cbn [read_literal]. cbn [Ascii.eqb Bool.eqb]. by rewrite IH.
    + change (read_literal
                (String a (py_replace "'" "''" s +:+ String "'" (String c rest)))
              = Some (String a s, String c rest)).
      cbn [read_literal]. by rewrite Ha, IH.
Qed.

(** For [contain] and [find] with a string as second argument, the
    template is the SQL function, the marker and a string literal: the
    argument with each of its single quotes doubled, between single
    quotes. Read the way SQL reads a literal, the text after the opening
    quote gives the argument back, whatever quotes it holds, and leaves
    the closing parenthesis; and halving the doubled quotes gives the
    argument back. *)
Theorem apply_fun_literal_reads_back cat func s :
  func = "contain" \/ func = "find" ->
  exists f body,
    f ∈ ["MAPCONTAINSVALUE"; "CONTAINS"; "ARRAY_FIND"]
    /\ vDCMATH.apply_fun_expr cat func (vDCMATH.ArgStr s) = f +:+ "({}, '" +:+ body
    /\ body = py_replace "'" "''" s +:+ "')"
    /\ read_literal body = Some (s, ")")
    /\ py_replace "''" "'" (py_replace "'" "''" s) = s.
Proof.
  assert (forall f, f +:+ "({}, " +:+ ("'" +:+ py_replace "'" "''" s +:+ "'") +:+ ")"
                    = f +:+ "({}, '" +:+ py_replace "'" "''" s +:+ "')") as Hshape.
  { intros f.
    change (f +:+ "({}, '" +:+ ((py_replace "'" "''" s +:+ "'") +:+ ")")
            = f +:+ "({}, '" +:+ (py_replace "'" "''" s +:+ ("'" +:+ ")"))).
    by rewrite append_assoc. }
  assert (read_literal (py_replace "'" "''" s +:+ "')") = Some (s, ")")) as Hread.
  { by apply (read_literal_escape s ")" EmptyString). }
  intros [-> | ->]; unfold vDCMATH.apply_fun_expr, vDCMATH.apply_fun_name.
  - destruct (String.eqb cat "vmap") eqn:E.
    + exists "MAPCONTAINSVALUE", (py_replace "'" "''" s +:+ "')").
      split; [apply list_elem_of_here|].
      split; [by rewrite <- Hshape|]. split; [done|]. split; [done|].
      apply unescape_escape.
    + exists "CONTAINS", (py_replace "'" "''" s +:+ "')").
      split; [apply list_elem_of_further, list_elem_of_here|].
      split; [by rewrite <- Hshape|]. split; [done|]. split; [done|].
      apply unescape_escape.
  - exists "ARRAY_FIND", (py_replace "'" "''" s +:+ "')").
    split; [do 2 apply list_elem_of_further; apply list_elem_of_here|].
    split; [by rewrite <- Hshape|]. split; [done|]. split; [done|].
    apply unescape_escape.
Qed.

Lemma apply_fun_literal_reads_back_witness :
  vDCMATH.apply_fun_expr "text" "find" (vDCMATH.ArgStr "it's")
  = "ARRAY_FIND({}, 'it''s')"
  /\ exists f body,
       vDCMATH.apply_fun_expr "text" "find" (vDCMATH.ArgStr "it's")
       = f +:+ "({}, '" +:+ body
       /\ read_literal body = Some ("it's", ")").
Proof.
  split; [by vm_compute|].
  destruct (apply_fun_literal_reads_back "text" "find" "it's")
    as (f & body & _ & H1 & _ & H2 & _).
  - by right.
  - by exists f, body.
Defined.

(** ** The two length operations on collections *)

(** [apply_fun] with [len] or [length] and [get_len] name the same SQL
    function exactly on the columns of category [vmap] or [complex]. *)
Theorem length_names_agree_on_collections cat :
  (vDCMATH.apply_fun_name cat "len" = vDCMATH.get_len_fun cat
   <-> cat = "vmap" \/ cat = "complex")
  /\ vDCMATH.apply_fun_name cat "length" = vDCMATH.apply_fun_name cat "len"
  /\ vDCMATH.apply_fun_expr cat "len" (vDCMATH.ArgNum "2")
     = vDCMATH.apply_fun_name cat "len" +:+ "({})".
Proof.
  destruct (String.eqb_spec cat "vmap") as [->|Hv].
  { split; [|by split]. split; [by left|done]. }
  destruct (String.eqb_spec cat "complex") as [->|Hc].
  { split; [|by split]. split; [by right|done]. }
  pose proof Hv as Hv'. pose proof Hc as Hc'.
  apply String.eqb_neq in Hv', Hc'.
  unfold vDCMATH.apply_fun_expr, vDCMATH.apply_fun_name, vDCMATH.get_len_fun.
  cbn [String.eqb Ascii.eqb Bool.eqb]. rewrite Hv', Hc'.
  split; [|by split]. split; [done|]. by intros [? | ?].
Qed.

(** ** Counting the placeholder markers *)

(** [s] starts with the character [c]. *)
Definition head_is (c : ascii) (s : string) : bool :=
  match s with
  | String a _ => Ascii.eqb a c
  | EmptyString => false
  end.

Lemma prefix_braces a s :
  String.prefix "{}" (String a s) = (Ascii.eqb a "{" && head_is "}" s)%bool.
Proof.
  rewrite prefix_cons. destruct s as [|b s]; [done|].
  by rewrite prefix_cons, prefix_nil, andb_true_r.
Qed.

Lemma count_cons a s :
  count_from "{}" (String a s) 0
  = if (Ascii.eqb a "{" && head_is "}" s)%bool
    then S (count_from "{}" s 1) else count_from "{}" s 0.
Proof. cbn [count_from]. by rewrite prefix_braces. Qed.

Lemma count_skip a s : count_from "{}" (String a s) 1 = count_from "{}" s 0.
Proof. done. Qed.

(** A part without opening brace holds no marker and starts none. *)
Lemma count_plain a t :
  has_char "{" a = false -> count_from "{}" (a +:+ t) 0 = count_from "{}" t 0.
Proof.
  induction a as [|x a IH]; [done|]. cbn [has_char].
  intros H. apply orb_false_elim in H as [Hx Ha].
  change (String x a +:+ t) with (String x (a +:+ t)).
  rewrite count_cons, Hx. cbn [andb]. by apply IH.
Qed.

Lemma count_marker t : count_from "{}" ("{}" +:+ t) 0 = S (count_from "{}" t 0).
Proof.
  change ("{}" +:+ t) with (String "{" (String "}" t)).
  by rewrite count_cons.
Qed.

Lemma count_none b : has_char "{" b = false -> count_from "{}" b 0 = 0%nat.
Proof.
  induction b as [|x b IH]; [done|]. cbn [has_char].
  intros H. apply orb_false_elim in H as [Hx Hb].
  rewrite count_cons, Hx. cbn [andb]. by apply IH.
Qed.

(** A template made of a part without brace, one marker, and a part
    without brace has exactly one marker. *)
Lemma one_marker a b :
  has_char "{" a = false -> has_char "{" b = false ->
  py_count "{}" (a +:+ "{}" +:+ b) = 1%nat.
Proof.
  intros Ha Hb. unfold py_count.
  rewrite count_plain, count_marker, count_none by done. done.
Qed.

(** *** The cast of the markers for a boolean column *)

Lemma cast_cons a s :
  replace_from "{}" "{}::int" (String a s) 0
  = if (Ascii.eqb a "{" && head_is "}" s)%bool
    then "{}::int" +:+ replace_from "{}" "{}::int" s 1
    else String a (replace_from "{}" "{}::int" s 0).
Proof. cbn [replace_from]. by rewrite prefix_braces. Qed.

Lemma cast_head s :
  head_is "}" (replace_from "{}" "{}::int" s 0) = head_is "}" s.
Proof.
  destruct s as [|a s]; [done|]. rewrite cast_cons.
  destruct (Ascii.eqb_spec a "{") as [->|Hne]; [|done].
  cbn [andb]. by destruct (head_is "}" s).
Qed.

Lemma cast_keeps_count s :
  count_from "{}" (replace_from "{}" "{}::int" s 0) 0 = count_from "{}" s 0
  /\ count_from "{}" (replace_from "{}" "{}::int" s 1) 0 = count_from "{}" s 1.
Proof.
  induction s as [|a s [IH0 IH1]]; [done|]. split; [|exact IH0].
  rewrite cast_cons, count_cons.
  destruct (Ascii.eqb a "{" && head_is "}" s)%bool eqn:E.
  - change ("{}::int" +:+ replace_from "{}" "{}::int" s 1)
      with ("{}" +:+ ("::int" +:+ replace_from "{}" "{}::int" s 1)).
    rewrite count_marker, count_plain by done. by rewrite IH1.
  - rewrite count_cons, cast_head, E. exact IH0.
Qed.

(** [applymap] casts the markers of the template for a boolean column
    (line 518); the cast template has as many markers as the template. *)
Lemma cast_placeholders func :
  py_count "{}" (py_replace "{}" "{}::int" func) = py_count "{}" func.
Proof. apply cast_keeps_count. Qed.

(** ** The dictionaries of [applymap] and of the frame-level [abs] *)

Lemma dict_set_elem k v d k' v' :
  (k', v') ∈ vDFMATH.dict_set k v d -> (k', v') ∈ d \/ (k' = k /\ v' = v).
Proof.
  induction d as [|[k0 v0] d IH]; cbn.
  - intros H. apply list_elem_of_singleton in H. simplify_eq. by right.
  - destruct (String.eqb_spec k k0) as [->|Hne].
    + intros H. apply elem_of_cons in H as [H|H].
      * simplify_eq. by right.
      * left. by apply list_elem_of_further.
    + intros H. apply elem_of_cons in H as [H|H].
      * simplify_eq. left. apply list_elem_of_here.
      * destruct (IH H) as [?|?]; [left; by apply list_elem_of_further | by right].
Qed.

Lemma dict_set_key k v d : (k, v) ∈ vDFMATH.dict_set k v d.
Proof.
  induction d as [|[k0 v0] d IH]; cbn; [apply list_elem_of_here|].
  destruct (String.eqb_spec k k0) as [->|Hne]; [apply list_elem_of_here|].
  by apply list_elem_of_further.
Qed.

Lemma dict_set_keeps_keys k v d k' v' :
  (k', v') ∈ d -> exists v'', (k', v'') ∈ vDFMATH.dict_set k v d.
Proof.
  induction d as [|[k0 v0] d IH]; [by intros ?%elem_of_nil|]. cbn.
  intros H. destruct (String.eqb_spec k k0) as [->|Hne].
  - apply elem_of_cons in H as [H|H].
    + simplify_eq. exists v. apply list_elem_of_here.
    + exists v'. by apply list_elem_of_further.
  - apply elem_of_cons in H as [H|H].
    + simplify_eq. eexists. apply list_elem_of_here.
    + destruct (IH H) as [v'' ?]. exists v''. by apply list_elem_of_further.
Qed.

(** The template that [applymap] gives to a column. *)
Definition applymap_template (insp : Inspect) (p : vDataFrame)
    (func column : string) : string :=
  if isbool insp p (quote_ident column) then py_replace "{}" "{}::int" func
  else func.

Lemma applymap_loop_run insp func cols d p d' p' :
  vDFMATH.applymap_loop insp func cols d p = (inr d', p') ->
  p' = p
  /\ (forall c f, (c, f) ∈ d' ->
        (c, f) ∈ d \/ (c ∈ cols /\ f = applymap_template insp p func c))
  /\ (forall c, c ∈ cols -> exists f, (c, f) ∈ d')
  /\ (forall c f, (c, f) ∈ d -> exists f', (c, f') ∈ d').
Proof.
  revert d. induction cols as [|c0 cols IH]; intros d; cbn.
  - intros [= <- <-]. split; [done|]. split; [by left|]. split.
    + by intros c ?%elem_of_nil.
    + intros c f H. by exists f.
  - unfold bind at 1. unfold getitem at 1.
    destruct (vcolumns p !! quote_ident c0) as [col|] eqn:E; [|done].
    rewrite bind_get. intros H. apply IH in H as (-> & H1 & H2 & H3).
    split; [done|]. split; [|split].
    + intros c f Hcf. destruct (H1 c f Hcf) as [Hd|[Hc ->]].
      * apply dict_set_elem in Hd as [?|[-> ->]]; [by left|]. right.
        split; [apply list_elem_of_here|].
        unfold applymap_template. by destruct (isbool insp p (quote_ident c0)).
      * right. split; [by apply list_elem_of_further|done].
    + intros c Hc. apply elem_of_cons in Hc as [->|Hc]; [|by apply H2].
      eapply H3. apply dict_set_key.
    + intros c f Hcf. destruct (dict_set_keeps_keys c0
        (if negb (isbool insp p (quote_ident c0)) then func
         else py_replace "{}" "{}::int" func) d c f Hcf) as [f' Hf'].
      by eapply H3.
Qed.

(** The dictionary that [applymap] builds has one template for each column
    of the list and for no other: the template given, or for a boolean
    column the template with every marker cast to [int], which has as many
    markers as the template given. Building it changes nothing in the
    frame. *)
Theorem applymap_builds_one_template_per_column insp func cols p function p' :
  vDFMATH.applymap_loop insp func cols [] p = (inr function, p') ->
  p' = p
  /\ (forall c, c ∈ cols <-> exists f, (c, f) ∈ function)
  /\ (forall c f, (c, f) ∈ function ->
        f = applymap_template insp p func c
        /\ placeholders f = placeholders func).
Proof.
  intros H. apply applymap_loop_run in H as (-> & H1 & H2 & _).
  split; [done|]. split.
  - intros c. split; [apply H2|]. intros [f Hf].
    destruct (H1 c f Hf) as [?%elem_of_nil|[? _]]; done.
  - intros c f Hf. destruct (H1 c f Hf) as [?%elem_of_nil|[_ ->]]; [done|].
    split; [done|]. unfold applymap_template, placeholders.
    destruct (isbool insp p (quote_ident c)); [apply cast_placeholders|done].
Qed.

(** A sample of the questions about the columns: a column is a date or a
    boolean when the type of its last step says so, the numerical columns
    are those of category [int] or [float], and a name is normalised by
    quoting it, or refused with [MissingColumn] when its quoted form is
    the alias of no column of the frame. *)
Definition sample_inspect : Inspect :=
  let type_of p c :=
    match vcolumns p !! c with
    | Some col => default EmptyString (step_ctype <$> last (transformations col))
    | None => EmptyString
    end in
  let category_of p c :=
    match vcolumns p !! c with
    | Some col => default EmptyString (step_category <$> last (transformations col))
    | None => EmptyString
    end in
  let known p c := bool_decide (is_Some (vcolumns p !! quote_ident c)) in
  let missing c :=
    Exn "MissingColumn" ("The Virtual Column '" +:+ c +:+ "' doesn't exist") in
  {| isdate := fun p c => String.eqb (type_of p c) "date";
     isbool := fun p c => String.eqb (type_of p c) "bool";
     numcol := fun p =>
       List.filter (fun c => in_tuple (category_of p c) ["int"; "float"])
                   (get_columns p);
     format_list := fun p cols =>
       match List.find (fun c => negb (known p c)) cols with
       | Some c => inl (missing c)
       | None => inr (map quote_ident cols)
       end;
     format_dict := fun p d =>
       match List.find (fun kv => negb (known p kv.1)) d with
       | Some kv => inl (missing kv.1)
       | None => inr (map (fun kv => (quote_ident kv.1, kv.2)) d)
       end |}.

(** Columns [n] (an integer) and [b] (a boolean). *)
Definition frame_nb : vDataFrame :=
  {| columns := [q "n"; q "b"];
     exclude_columns := [];
     history := [];
     vcolumns :=
       {[ q "n" := mk_vColumn [(q "n", "int", "int")] 0;
          q "b" := mk_vColumn [(q "b", "bool", "int")] 1 ]};
     dicts := [ ∅; ∅ ] |}.

Lemma applymap_builds_one_template_per_column_witness :
  vDFMATH.applymap_loop sample_inspect "{} + 1" [q "n"; q "b"] [] frame_nb
  = (inr [(q "n", "{} + 1"); (q "b", "{}::int + 1")], frame_nb)
  /\ placeholders "{}::int + 1" = placeholders "{} + 1".
Proof.
  split; [by vm_compute|].
  refine (proj2 (proj2 (proj2
    (applymap_builds_one_template_per_column sample_inspect "{} + 1"
       [q "n"; q "b"] frame_nb [(q "n", "{} + 1"); (q "b", "{}::int + 1")]
       frame_nb _)) (q "b") "{}::int + 1" _)).
  - by vm_compute.
  - apply list_elem_of_further, list_elem_of_here.
Defined.

(** The template that the frame-level [abs] gives to the columns it
    transforms. *)
Lemma abs_loop_run insp cols d p d' p' :
  vDFMATH.abs_loop insp cols d p = (inr d', p') ->
  p' = p
  /\ (forall c f, (c, f) ∈ d' ->
        (c, f) ∈ d
        \/ (c ∈ cols /\ isbool insp p (quote_ident c) = false /\ f = "ABS({})"))
  /\ (forall c, c ∈ cols -> isbool insp p (quote_ident c) = false ->
                 exists f, (c, f) ∈ d')
  /\ (forall c f, (c, f) ∈ d -> exists f', (c, f') ∈ d').
Proof.
  revert d. induction cols as [|c0 cols IH]; intros d; cbn.
  - intros [= <- <-]. split; [done|]. split; [by left|]. split.
    + by intros c ?%elem_of_nil.
    + intros c f H. by exists f.
  - unfold bind at 1. unfold getitem at 1.
    destruct (vcolumns p !! quote_ident c0) as [col|] eqn:E; [|done].
    rewrite bind_get. intros H. apply IH in H as (-> & H1 & H2 & H3).
    split; [done|]. split; [|split].
    + intros c f Hcf. destruct (H1 c f Hcf) as [Hd|(Hc & Hb & ->)].
      * destruct (isbool insp p (quote_ident c0)) eqn:Hb0; cbn in Hd; [by left|].
        apply dict_set_elem in Hd as [?|[-> ->]]; [by left|]. right.
        split; [apply list_elem_of_here|done].
      * right. split; [by apply list_elem_of_further|done].
    + intros c Hc Hb. apply elem_of_cons in Hc as [->|Hc]; [|by apply H2].
      rewrite Hb in H3. cbn in H3. eapply H3. apply dict_set_key.
    + intros c f Hcf.
      destruct (isbool insp p (quote_ident c0)); cbn in H3; [by eapply H3|].
      destruct (dict_set_keeps_keys c0 "ABS({})" d c f Hcf) as [f' Hf'].
      by eapply H3.
Qed.

(** The dictionary that the frame-level [abs] builds gives [ABS({})] to
    the columns of the list that are not boolean, and holds no boolean
    column and no other column: [abs] never transforms a boolean column.
    Building it changes nothing in the frame. *)
Theorem frame_abs_skips_the_boolean_columns insp cols p func p' :
  vDFMATH.abs_loop insp cols [] p = (inr func, p') ->
  p' = p
  /\ (forall c, (exists f, (c, f) ∈ func)
                <-> c ∈ cols /\ isbool insp p (quote_ident c) = false)
  /\ (forall c f, (c, f) ∈ func -> f = "ABS({})").
Proof.
  intros H. apply abs_loop_run in H as (-> & H1 & H2 & _).
  split; [done|]. split.
  - intros c. split.
    + intros [f Hf]. destruct (H1 c f Hf) as [?%elem_of_nil|(? & ? & _)]; done.
    + intros [Hc Hb]. by apply H2.
  - intros c f Hf. destruct (H1 c f Hf) as [?%elem_of_nil|(_ & _ & ->)]; done.
Qed.

Lemma frame_abs_skips_the_boolean_columns_witness :
  vDFMATH.abs_loop sample_inspect [q "n"; q "b"] [] frame_nb
  = (inr [(q "n", "ABS({})")], frame_nb)
  /\ ~ (exists f, (q "b", f) ∈ [(q "n", "ABS({})")]).
Proof.
  split; [by vm_compute|]. intros Hb.
  apply (proj1 (proj1 (proj2
    (frame_abs_skips_the_boolean_columns sample_inspect [q "n"; q "b"] frame_nb
       [(q "n", "ABS({})")] frame_nb ltac:(by vm_compute))) (q "b"))) in Hb.
  destruct Hb as [_ Hb]. by vm_compute in Hb.
Defined.

(** ** The frame-level [apply] *)

(** One call of the column-level [apply]: a history entry on success,
    none on failure. *)
Lemma apply_history_step ext self func copy_name p r p' :
  vDCMATH.apply ext self func copy_name p = (r, p') ->
  history p'
  = (history p
     ++ match r with
        | inr _ => [vDCMATH.history_entry (py_replace dq EmptyString self)
                                          (py_replace "{}" self func)]
        | inl _ => []
        end)%list.
Proof.
  unfold vDCMATH.apply, try_except, vDCMATH.apply_body, bind. cbv zeta.
  pose proof (preserves_apply_update same_history same_history_stable ext self
                func copy_name (py_replace "{}" self func) p) as Hs.
  unfold same_history in Hs.
  destruct (vDCMATH.apply_update _ _ _ _ _ _) as [[e|[]] p1]; cbn in Hs.
  - intros [= <- <-]. by rewrite app_nil_r.
  - intros [= <- <-]. cbn. by rewrite Hs.
Qed.

Lemma apply_depth_grows ext self func copy_name p r p' :
  vDCMATH.apply ext self func copy_name p = (r, p') -> depth_grows p p'.
Proof.
  intros H.
  pose proof (preserves_apply depth_grows ext self func copy_name
                depth_grows_stable preserves_add_to_history_depth p) as Hp.
  by rewrite H in Hp.
Qed.

(** The history entry of the dictionary entry [(column, template)]. *)
Definition entry_of (kv : string * string) : string :=
  vDCMATH.history_entry (py_replace dq EmptyString (quote_ident kv.1))
                        (py_replace "{}" (quote_ident kv.1) kv.2).

(** The frame-level [apply] transforms the columns in the order of the
    dictionary and stops at the first entry that raises: the entries
    before it stay applied and logged (nothing is rolled back), the
    entries after it are not applied. The history gains one entry for each
    entry applied, in the order of the dictionary, and no column loses a
    step. *)
Theorem frame_apply_stops_at_the_first_failure ext func p r p' :
  vDFMATH.apply_loop ext func p = (r, p') ->
  exists n,
    history p' = (history p ++ map entry_of (take n func))%list
    /\ match r with
       | inr _ => n = length func
       | inl _ => (n < length func)%nat
       end
    /\ depth_grows p p'.
Proof.
  revert p. induction func as [|[column f] func IH]; intros p; cbn.
  - intros [= <- <-]. exists 0%nat. rewrite app_nil_r. repeat split. reflexivity.
  - unfold bind at 1. unfold bind at 1. unfold getitem at 1.
    destruct (vcolumns p !! quote_ident column) as [col|] eqn:E.
    + destruct (vDCMATH.apply ext (quote_ident column) f EmptyString p)
        as [[e|[]] p1] eqn:Hrun.
      * intros [= <- <-]. exists 0%nat. cbn.
        rewrite (apply_history_step _ _ _ _ _ _ _ Hrun). repeat split; [lia|].
        by eapply apply_depth_grows.
      * intros H. apply IH in H as (n & Hh & Hr & Hd). exists (S n).
        split; [|split].
        -- rewrite Hh, (apply_history_step _ _ _ _ _ _ _ Hrun). cbn.
           by rewrite <- app_assoc.
        -- destruct r; lia.
        -- etrans; [|exact Hd]. by eapply apply_depth_grows.
    + intros [= <- <-]. exists 0%nat. cbn. rewrite app_nil_r.
      repeat split; [lia|reflexivity].
Qed.

Lemma frame_apply_stops_at_the_first_failure_witness :
  exists e p',
    vDFMATH.apply_loop db
      [(q "n", "{} + 1"); (q "b", "NO_SUCH_FUNCTION({})"); (q "n", "{} * 2")]
      frame_nb = (inl e, p')
    /\ history p' = [entry_of (q "n", "{} + 1")]
    /\ depth p' (q "n") = Some 2%nat.
Proof.
  destruct (vDFMATH.apply_loop db
              [(q "n", "{} + 1"); (q "b", "NO_SUCH_FUNCTION({})"); (q "n", "{} * 2")]
              frame_nb) as [[e|[]] p'] eqn:Hrun; [|by vm_compute in Hrun].
  exists e, p'. split; [done|].
  destruct (frame_apply_stops_at_the_first_failure db _ _ _ _ Hrun)
    as (n & Hh & Hn & _).
  vm_compute in Hrun. injection Hrun as <- <-. split; by vm_compute.
Defined.

(** ** The one-line transformations *)

(** The step that a call with a template free of double quotes appends. *)
Lemma apply_plain_step ext p self func (col : vColumn) s0 p' :
  wf_column p self col s0 ->
  has_char dq_char func = false ->
  vDCMATH.apply ext self func EmptyString p = (inr tt, p') ->
  exists ct,
    vcolumns p' !! self
    = Some (mk_vColumn (transformations col ++ [(func, ct, to_category ext ct)])
                       (length (dicts p))).
Proof.
  intros Hwf Hplain Hrun.
  rewrite (apply_run ext p self func EmptyString col s0 Hwf) in Hrun.
  destruct (get_data_types _ _ _) as [e0|ct]; [done|]. cbn [truthy] in Hrun.
  injection Hrun as <-. exists ct. unfold applied_frame. cbn.
  rewrite lookup_insert_eq. unfold quoted_depth.
  rewrite max_depth_where_none; [done|].
  intros c _. by apply quoted_in_plain.
Qed.

Ltac plain_chars :=
  rewrite ?has_char_app, ?has_char_str_int by done; reflexivity.

Lemma add_template_plain x :
  placeholders ("{} + (" +:+ str_int x +:+ ")") = 1%nat
  /\ has_char dq_char ("{} + (" +:+ str_int x +:+ ")") = false.
Proof.
  split; [|plain_chars].
  apply (one_marker EmptyString (" + (" +:+ str_int x +:+ ")")); [done|plain_chars].
Qed.

Lemma sub_template_plain x :
  placeholders ("{} - (" +:+ str_int x +:+ ")") = 1%nat
  /\ has_char dq_char ("{} - (" +:+ str_int x +:+ ")") = false.
Proof.
  split; [|plain_chars].
  apply (one_marker EmptyString (" - (" +:+ str_int x +:+ ")")); [done|plain_chars].
Qed.

Lemma div_template_plain x :
  placeholders ("{} / (" +:+ str_int x +:+ ")") = 1%nat
  /\ has_char dq_char ("{} / (" +:+ str_int x +:+ ")") = false.
Proof.
  split; [|plain_chars].
  apply (one_marker EmptyString (" / (" +:+ str_int x +:+ ")")); [done|plain_chars].
Qed.

Lemma round_template_plain n :
  placeholders ("ROUND({}, " +:+ str_int n +:+ ")") = 1%nat
  /\ has_char dq_char ("ROUND({}, " +:+ str_int n +:+ ")") = false.
Proof.
  split; [|plain_chars].
  apply (one_marker "ROUND(" (", " +:+ str_int n +:+ ")")); [done|plain_chars].
Qed.

Lemma date_template_plain (pre x mid : string) :
  has_char "{" pre = false -> has_char "{" x = false -> has_char "{" mid = false ->
  has_char dq_char pre = false -> has_char dq_char x = false ->
  has_char dq_char mid = false ->
  placeholders (pre +:+ x +:+ mid +:+ "{})") = 1%nat
  /\ has_char dq_char (pre +:+ x +:+ mid +:+ "{})") = false.
Proof.
  intros Hp Hx Hm Hp' Hx' Hm'. split.
  - replace (pre +:+ x +:+ mid +:+ "{})")
      with ((pre +:+ x +:+ mid) +:+ "{}" +:+ ")").
    + apply one_marker; [|done]. rewrite !has_char_app, Hp, Hx, Hm. done.
    + rewrite !append_assoc. done.
  - rewrite !has_char_app, Hp', Hx', Hm'. done.
Qed.

(** On a column of the frame, [add], [sub], [div] and [round] with an
    integer argument, and [abs], append when they succeed exactly one
    step, without any padding, whose template has exactly one placeholder
    marker; [add] and [sub] do so on a date column as on any other. A
    division by zero raises [AssertionError] before anything is asked to
    the database, and leaves the frame as it is. *)
Theorem integer_one_liners_append_one_step
    ext insp p self (col : vColumn) s0 (x : Z) :
  wf_column p self col s0 ->
  let appends (op : M unit) :=
    forall p', op p = (inr tt, p') ->
      exists template ct,
        placeholders template = 1%nat
        /\ vcolumns p' !! self
           = Some (mk_vColumn
                     (transformations col ++ [(template, ct, to_category ext ct)])
                     (length (dicts p))) in
  appends (vDCMATH.add ext insp self (Int x))
  /\ appends (vDCMATH.sub ext insp self (Int x))
  /\ appends (vDCMATH.div ext self (Int x))
  /\ appends (vDCMATH.round ext self (str_int x))
  /\ appends (vDCMATH.abs ext self)
  /\ vDCMATH.div ext self (Int 0) p
     = (inl (Exn "AssertionError" "Division by 0 is forbidden !"), p).
Proof.
  intros Hwf appends.
  assert (forall template,
            placeholders template = 1%nat /\ has_char dq_char template = false ->
            appends (vDCMATH.apply ext self template EmptyString)) as Happ.
  { intros template [Hc Hq] p' Hrun.
    destruct (apply_plain_step _ _ _ _ _ _ _ Hwf Hq Hrun) as [ct Hct].
    by exists template, ct. }
  assert (forall c, is_digit_or_minus c = false -> has_char c (str_int x) = false)
    as Hx by (intros; by apply has_char_str_int).
  repeat split.
  - intros p'. unfold vDCMATH.add. rewrite bind_get.
    destruct (isdate insp p self); apply Happ; [|apply add_template_plain].
    by apply (date_template_plain "TIMESTAMPADD(SECOND, " (str_int x) ", "); auto.
  - intros p'. unfold vDCMATH.sub. rewrite bind_get.
    destruct (isdate insp p self); apply Happ; [|apply sub_template_plain].
    by apply (date_template_plain "TIMESTAMPADD(SECOND, -(" (str_int x) "), "); auto.
  - intros p'. unfold vDCMATH.div. destruct (number_is_zero (Int x)); [done|].
    apply Happ, div_template_plain.
  - intros p'. apply Happ, round_template_plain.
  - intros p'. by apply Happ.
Qed.

Lemma integer_one_liners_append_one_step_witness :
  exists template ct,
    placeholders template = 1%nat
    /\ vcolumns (vDCMATH.sub db sample_inspect (q "n") (Int (-3)) frame_nb).2 !! q "n"
       = Some (mk_vColumn ([(q "n", "int", "int")]
                           ++ [(template, ct, to_category db ct)]) 2).
Proof.
  refine (proj1 (proj2
    (integer_one_liners_append_one_step db sample_inspect frame_nb (q "n")
       (mk_vColumn [(q "n", "int", "int")] 0) (q "n", "int", "int") (-3) _)) _ _).
  - repeat split; by vm_compute.
  - by vm_compute.
Defined.

(** ** The templates of [apply_fun] *)

(** The function names that [apply_fun] documents (lines 681 to 716). *)
Definition apply_fun_names : list string :=
  [ "abs"; "acos"; "asin"; "atan"; "avg"; "cbrt"; "ceil"; "contain"; "count";
    "cos"; "cosh"; "cot"; "dim"; "exp"; "find"; "floor"; "len"; "length"; "ln";
    "log"; "log10"; "max"; "mean"; "mod"; "min"; "pow"; "round"; "sign"; "sin";
    "sinh"; "sum"; "sqrt"; "tan"; "tanh" ].

Lemma has_char_escape c s :
  Ascii.eqb "'" c = false ->
  has_char c (py_replace "'" "''" s) = has_char c s.
Proof.
  intros Hc. induction s as [|a s IH]; [done|]. rewrite escape_cons.
  destruct (Ascii.eqb_spec a "'") as [->|Hne].
  - change ("''" +:+ py_replace "'" "''" s)
      with (String "'" (String "'" (py_replace "'" "''" s))).
    cbn [has_char]. by rewrite IH, Hc.
  - cbn [has_char]. by rewrite IH.
Qed.

Lemma unary_template u :
  has_char "{" u = false -> placeholders (u +:+ "({})") = 1%nat.
Proof.
  intros Hu. replace (u +:+ "({})") with ((u +:+ "(") +:+ "{}" +:+ ")").
  - apply one_marker; [|done]. by rewrite has_char_app, Hu.
  - by rewrite append_assoc.
Qed.

Lemma binary_template u x :
  has_char "{" u = false -> has_char "{" x = false ->
  placeholders (u +:+ "({}, " +:+ x +:+ ")") = 1%nat.
Proof.
  intros Hu Hx.
  replace (u +:+ "({}, " +:+ x +:+ ")")
    with ((u +:+ "(") +:+ "{}" +:+ (", " +:+ x +:+ ")")).
  - apply one_marker; [by rewrite has_char_app, Hu|].
    by rewrite !has_char_app, Hx.
  - by rewrite append_assoc.
Qed.

(** The second argument as it is written in the template. *)
Definition written_arg (x : vDCMATH.arg) : string :=
  match x with
  | vDCMATH.ArgStr s => "'" +:+ py_replace "'" "''" s +:+ "'"
  | vDCMATH.ArgNum s => s
  end.

Lemma written_arg_plain x :
  has_char "{" (vDCMATH.str_arg x) = false -> has_char "{" (written_arg x) = false.
Proof.
  destruct x as [s|s]; [|done]. cbn [vDCMATH.str_arg written_arg]. intros H.
  rewrite !has_char_app, has_char_escape by done. by rewrite H.
Qed.

(** For each function name that [apply_fun] documents, on a column of any
    category and with a second argument that holds no opening brace, the
    template that [apply_fun] builds has exactly one placeholder marker. *)
Theorem apply_fun_templates_have_one_marker cat func x :
  func ∈ apply_fun_names ->
  has_char "{" (vDCMATH.str_arg x) = false ->
  placeholders (vDCMATH.apply_fun_expr cat func x) = 1%nat.
Proof.
  intros Hf Hx. pose proof (written_arg_plain x Hx) as Hw.
  assert (forall u, has_char "{" u = false ->
            placeholders (u +:+ "({}, " +:+ written_arg x +:+ ")") = 1%nat) as Hbin.
  { intros u Hu. by apply binary_template. }
  assert (forall u, has_char "{" u = false ->
            placeholders (u +:+ "({}, " +:+ vDCMATH.str_arg x +:+ ")") = 1%nat)
    as Hnum.
  { intros u Hu. by apply binary_template. }
  unfold apply_fun_names in Hf.
  repeat (apply elem_of_cons in Hf as [->|Hf]);
    try (by apply elem_of_nil in Hf);
    try (match goal with
         | |- placeholders (vDCMATH.apply_fun_expr _ ?f _) = _ =>
             let u := eval vm_compute in
                        (py_upper (vDCMATH.apply_fun_name EmptyString f)) in
             first [exact (unary_template u eq_refl) | exact (Hnum u eq_refl)]
         end).
  - (* contain *)
    destruct (String.eqb_spec cat "vmap") as [->|Hv].
    + destruct x; exact (Hbin "MAPCONTAINSVALUE" eq_refl).
    + apply String.eqb_neq in Hv.
      unfold vDCMATH.apply_fun_expr, vDCMATH.apply_fun_name.
      cbn [String.eqb Ascii.eqb Bool.eqb]. rewrite Hv.
      destruct x; exact (Hbin "CONTAINS" eq_refl).
  - (* find *)
    destruct x; exact (Hbin "ARRAY_FIND" eq_refl).
  - (* len *)
    destruct (String.eqb_spec cat "vmap") as [->|Hv]; [done|].
    destruct (String.eqb_spec cat "complex") as [->|Hc]; [done|].
    apply String.eqb_neq in Hv, Hc.
    unfold vDCMATH.apply_fun_expr, vDCMATH.apply_fun_name.
    cbn [String.eqb Ascii.eqb Bool.eqb]. by rewrite Hv, Hc.
  - (* length *)
    destruct (String.eqb_spec cat "vmap") as [->|Hv]; [done|].
    destruct (String.eqb_spec cat "complex") as [->|Hc]; [done|].
    apply String.eqb_neq in Hv, Hc.
    unfold vDCMATH.apply_fun_expr, vDCMATH.apply_fun_name.
    cbn [String.eqb Ascii.eqb Bool.eqb]. by rewrite Hv, Hc.
Qed.

Lemma apply_fun_templates_have_one_marker_witness :
  placeholders (vDCMATH.apply_fun_expr "text" "find" (vDCMATH.ArgStr "it's")) = 1%nat.
Proof.
  apply apply_fun_templates_have_one_marker; [|done].
  unfold apply_fun_names. rewrite !elem_of_cons. auto 20.
Defined.

(** ** The errors of [analytic] *)

(** The aggregates of lines 203 to 222, the window functions of lines 356
    to 367 and the statistics of two columns of line 411. *)
Definition analytic_aggregates : list string :=
  ["max"; "min"; "avg"; "sum"; "count"; "stddev"; "median"; "variance";
   "unique"; "top"; "kurtosis"; "skewness"; "mad"; "aad"; "range";
   "prod"; "jb"; "iqr"; "sem"].

Definition analytic_windows : list string :=
  ["lead"; "lag"; "row_number"; "percent_rank"; "dense_rank"; "rank";
   "first_value"; "last_value"; "exponential_moving_average"; "pct_change"].

Definition analytic_pairs : list string := ["corr"; "cov"; "beta"].

Section AnalyticErrors.

Context (ext : External).
Context (func : string) (columns by_ order_by : list string).
Context (name offset x_smoothing : string) (add_count : bool) (random_nb : Z).
Context (p : vDataFrame) (cols bys : list string).
Context (Hfmt : format_colnames ext p columns by_ = inr (cols, bys)).

Let f := verticapy_agg_name ext (py_lower (py_lower func)).
Let call := vDFMATH.analytic ext func columns by_ order_by name offset x_smoothing
                             add_count random_nb p.
Let by_text :=
  if truthy (py_join ", " bys) then "PARTITION BY " +:+ py_join ", " bys
  else EmptyString.

(** The call, once the names are normalised and the name of the new column
    is known. *)
Lemma analytic_named :
  truthy name = true ->
  call =
  bind
    (if (in_tuple f analytic_aggregates || py_in "%" f)%bool then
       vDFMATH.analytic_aggregate ext f name cols by_text
         (get_sort_syntax ext order_by) add_count random_nb
     else if in_tuple f analytic_windows then
       vDFMATH.analytic_window ext f name cols by_text
         (get_sort_syntax ext order_by) offset x_smoothing
     else if in_tuple f analytic_pairs then
       vDFMATH.analytic_pair ext f name cols by_text
     else vDFMATH.analytic_other f name cols)
    (fun _ =>
       let quoted kind :=
         quote_ident (vDFMATH.helper_name (default EmptyString (cols !! 0%nat))
                                          kind random_nb) in
       if in_tuple f ["kurtosis"; "skewness"; "jb"] then
         vDFMATH.exclude [quoted "mean"; quoted "std"; quoted "count"]
       else if String.eqb f "aad" then vDFMATH.exclude [quoted "mean"]
       else if String.eqb f "mad" then vDFMATH.exclude [quoted "median"]
       else ret tt) p.
Proof.
  intros Hname. unfold call, vDFMATH.analytic. rewrite bind_get.
  erewrite bind_inr; [|unfold lift; by rewrite Hfmt].
  cbv zeta. cbn [fst snd]. rewrite Hname. cbn [negb].
  erewrite bind_inr; [|reflexivity]. reflexivity.
Qed.

(** The call raises an exception of the class [class] and leaves the frame
    as it is. *)
Definition refuses (class : string) : Prop :=
  exists e, call = (inl e, p) /\ exn_class e = class.

(** [analytic] checks its arguments before it creates any column: an
    aggregate without column, a window function that needs a column and
    has none, a ranking function given a column, and a statistic of two
    columns given another number of columns each raise, and the frame is
    left as it is. *)
Theorem analytic_refuses_bad_arguments :
  truthy name = true ->
  (f ∈ analytic_aggregates -> get_sort_syntax ext order_by = EmptyString ->
   cols = [] -> refuses "MissingColumn")
  /\ (f ∈ vDFMATH.needs_column -> cols = [] -> refuses "ParameterError")
  /\ (f ∈ ["row_number"; "percent_rank"; "dense_rank"; "rank"] -> cols <> [] ->
      refuses "ParameterError")
  /\ (f ∈ analytic_pairs -> length cols <> 2%nat -> refuses "AssertionError").
Proof.
  intros Hname. unfold refuses. rewrite (analytic_named Hname).
  remember f as g eqn:Hg. clear Hg. split; [|split; [|split]].
  - intros Hf Hs ->. apply in_tuple_elem_of in Hf. rewrite Hf, Hs. cbn [orb].
    eexists. split; [reflexivity|done].
  - intros Hf ->. unfold vDFMATH.needs_column in Hf.
    repeat (apply elem_of_cons in Hf as [->|Hf]);
      try (by apply elem_of_nil in Hf); eexists; (split; [reflexivity|done]).
  - intros Hf Hc. destruct cols as [|c0 cs]; [done|].
    repeat (apply elem_of_cons in Hf as [->|Hf]);
      try (by apply elem_of_nil in Hf); eexists; (split; [reflexivity|done]).
  - intros Hf Hl. apply Nat.eqb_neq in Hl. unfold analytic_pairs in Hf.
    repeat (apply elem_of_cons in Hf as [->|Hf]);
      try (by apply elem_of_nil in Hf);
      (eexists; split;
       [unfold bind at 1; cbn [in_tuple existsb String.eqb Ascii.eqb Bool.eqb orb];
        unfold vDFMATH.analytic_pair; unfold bind at 1; rewrite Hl; reflexivity
       |done]).
Qed.

(** Three ways of calling [analytic] end on a name that the module never
    binds and raise [NameError], the frame being left as it is: no name
    for the new column ([gen_name]), an aggregate with an ORDER BY clause
    ([OPTIONS]), and a function that [analytic] does not know
    ([FunctionError], which the code means to raise). *)
Theorem analytic_unbound_names :
  (name = EmptyString ->
   call = (inl (Exn "NameError" "name 'gen_name' is not defined"), p))
  /\ (truthy name = true -> f ∈ analytic_aggregates ->
      truthy (get_sort_syntax ext order_by) = true ->
      call = (inl (Exn "NameError" "name 'OPTIONS' is not defined"), p))
  /\ (truthy name = true ->
      in_tuple f (analytic_aggregates ++ analytic_windows ++ analytic_pairs) = false ->
      py_in "%" f = false ->
      call = (inl (Exn "NameError" "name 'FunctionError' is not defined"), p)).
Proof.
  split; [|split].
  - intros ->. unfold call, vDFMATH.analytic. rewrite bind_get.
    erewrite bind_inr; [|unfold lift; by rewrite Hfmt]. reflexivity.
  - intros Hname Hf Hs. rewrite (analytic_named Hname).
    apply in_tuple_elem_of in Hf. rewrite Hf. cbn [orb].
    unfold vDFMATH.analytic_aggregate. unfold bind at 1. unfold bind at 1.
    by rewrite Hs.
  - intros Hname Hf Hpct. rewrite (analytic_named Hname).
    unfold in_tuple in Hf. rewrite !existsb_app in Hf.
    apply orb_false_elim in Hf as [Ha Hf]. apply orb_false_elim in Hf as [Hw Hp].
    unfold in_tuple. rewrite Ha, Hw, Hp, Hpct. cbn [orb].
    unfold vDFMATH.analytic_other, bind, try_except, vDFMATH.item.
    by destruct (cols !! 0%nat).
Qed.

End AnalyticErrors.

Lemma analytic_refuses_bad_arguments_witness :
  refuses db "lag" [] [] [] "previous" "1" "0.5" true 0 frame_xy "ParameterError".
Proof.
  refine (proj1 (proj2
    (analytic_refuses_bad_arguments db "lag" [] [] [] "previous" "1" "0.5" true 0
       frame_xy [] [] eq_refl eq_refl)) _ eq_refl).
  unfold vDFMATH.needs_column. rewrite !elem_of_cons. auto.
Defined.

Lemma analytic_unbound_names_witness :
  vDFMATH.analytic db "mean" ["x"] [] [] EmptyString "1" "0.5" true 0 frame_xy
  = (inl (Exn "NameError" "name 'gen_name' is not defined"), frame_xy).
Proof.
  exact (proj1 (analytic_unbound_names db "mean" ["x"] [] [] EmptyString "1" "0.5"
                  true 0 frame_xy [q "x"] [] eq_refl) eq_refl).
Defined.

(** ** The exclude list along [analytic] *)

(** The exclude list is left as it is. *)
Definition same_exclude : relation vDataFrame :=
  fun p p' => exclude_columns p' = exclude_columns p.

#[local] Instance same_exclude_preorder : PreOrder same_exclude.
Proof.
  split; [by intros p | intros p1 p2 p3 H1 H2].
  unfold same_exclude in *. congruence.
Qed.

Lemma same_exclude_stable : Stable same_exclude.
Proof.
  split.
  - intros self s p. unfold append_step, bind, column_object.
    by destruct (vcolumns p !! self).
  - intros self a p. unfold set_catalog, bind, column_object.
    by destruct (vcolumns p !! self).
  - by intros d p.
  - intros self name p. unfold add_copy, bind, column_object, get.
    destruct (vcolumns p !! self); [|done].
    by destruct (vcolumns p !! quote_ident name).
Qed.

Lemma preserves_apply_exclude ext self func copy_name :
  preserves same_exclude (vDCMATH.apply ext self func copy_name).
Proof.
  apply (preserves_apply same_exclude); [apply same_exclude_stable|].
  by intros msg p.
Qed.

(** The helper columns that [analytic] excludes for the function [f] on
    the column [c0], lines 450 to 459. *)
Definition excluded_helpers (f c0 : string) (random_nb : Z) : list string :=
  let quoted kind := quote_ident (vDFMATH.helper_name c0 kind random_nb) in
  if in_tuple f ["kurtosis"; "skewness"; "jb"] then
    [quoted "mean"; quoted "std"; quoted "count"]
  else if String.eqb f "aad" then [quoted "mean"]
  else if String.eqb f "mad" then [quoted "median"]
  else [].

Section AnalyticExclude.

Context (ext : External).
Context (Heval : forall name expr, preserves same_exclude (vdf_eval ext name expr)).

Ltac keeps_exclude :=
  repeat first
    [ apply (preserves_ret same_exclude)
    | apply (preserves_raise same_exclude)
    | apply Heval
    | apply (preserves_getitem same_exclude)
    | apply (preserves_resolve_global same_exclude)
    | apply preserves_apply_exclude
    | apply (preserves_bind same_exclude); [|intros]
    | apply (preserves_try same_exclude); [|intros]
    | match goal with
      | |- preserves _ (if ?b then _ else _) => destruct b
      | |- preserves _ (match ?x with _ => _ end) => destruct x
      end ].

Lemma preserves_item cols i : preserves same_exclude (vDFMATH.item cols i).
Proof. unfold vDFMATH.item. keeps_exclude. Qed.

Lemma preserves_analytic_moments f name cols by_text random_nb :
  preserves same_exclude (vDFMATH.analytic_moments ext f name cols by_text random_nb).
Proof.
  unfold vDFMATH.analytic_moments.
  apply (preserves_bind same_exclude); [apply preserves_item|intros c0].
  cbv zeta. keeps_exclude.
Qed.

Lemma preserves_analytic_aggregate f name cols by_text order_text add_count random_nb :
  preserves same_exclude
    (vDFMATH.analytic_aggregate ext f name cols by_text order_text add_count
                                random_nb).
Proof.
  unfold vDFMATH.analytic_aggregate.
  apply (preserves_bind same_exclude); [keeps_exclude|intros warn].
  apply (preserves_bind same_exclude); [keeps_exclude|intros _].
  destruct (in_tuple f _); [apply preserves_analytic_moments|].
  unfold vDFMATH.raise_FunctionError.
  repeat match goal with
         | |- preserves _ (if ?b then _ else _) => destruct b
         | |- preserves _ (match ?x with _ => _ end) => destruct x
         | |- preserves _ (bind (vDFMATH.item _ _) _) =>
             apply (preserves_bind same_exclude); [apply preserves_item|intros]
         end;
    cbv zeta; keeps_exclude.
Qed.

Lemma preserves_analytic_window f name cols by_text order_text offset x_smoothing :
  preserves same_exclude
    (vDFMATH.analytic_window ext f name cols by_text order_text offset x_smoothing).
Proof.
  unfold vDFMATH.analytic_window.
  apply (preserves_bind same_exclude); [keeps_exclude|intros _]. cbv zeta.
  destruct (String.eqb f "pct_change"); [|apply Heval].
  apply (preserves_bind same_exclude); [apply preserves_item|intros]. apply Heval.
Qed.

Lemma preserves_analytic_pair f name cols by_text :
  preserves same_exclude (vDFMATH.analytic_pair ext f name cols by_text).
Proof.
  unfold vDFMATH.analytic_pair.
  apply (preserves_bind same_exclude); [keeps_exclude|intros _].
  apply (preserves_bind same_exclude); [apply preserves_item|intros c0].
  apply (preserves_bind same_exclude); [apply preserves_item|intros c1].
  apply Heval.
Qed.

Lemma preserves_analytic_other f name cols :
  preserves same_exclude (vDFMATH.analytic_other f name cols).
Proof.
  unfold vDFMATH.analytic_other, vDFMATH.raise_FunctionError.
  apply (preserves_try same_exclude); [|intros; keeps_exclude].
  apply (preserves_bind same_exclude); [apply preserves_item|intros]. keeps_exclude.
Qed.

(** When [eval] leaves the exclude list alone, a call of [analytic] adds
    to the exclude list, at its end, the helper columns of the function
    when it succeeds, and nothing when it raises: helper columns created
    by a call that raises afterwards stay in the frame without being
    excluded. For a function without helper columns the list is left as
    it is. *)
Theorem analytic_excludes_only_on_success
    func columns by_ order_by name offset x_smoothing add_count random_nb
    p cols bys r p' :
  format_colnames ext p columns by_ = inr (cols, bys) ->
  vDFMATH.analytic ext func columns by_ order_by name offset x_smoothing
                   add_count random_nb p = (r, p') ->
  exclude_columns p'
  = (exclude_columns p
     ++ match r with
        | inr _ =>
            excluded_helpers (verticapy_agg_name ext (py_lower (py_lower func)))
                             (default EmptyString (cols !! 0%nat)) random_nb
        | inl _ => []
        end)%list.
Proof.
  intros Hfmt. destruct (truthy name) eqn:Hname.
  - rewrite (analytic_named ext func columns by_ order_by name offset x_smoothing
               add_count random_nb p cols bys Hfmt Hname).
    set (f := verticapy_agg_name ext (py_lower (py_lower func))).
    unfold bind at 1.
    match goal with
    | |- context [(if (in_tuple f analytic_aggregates || _)%bool then ?a
                   else if _ then ?w else if _ then ?b else ?o) p] =>
        assert (preserves same_exclude
                  (if (in_tuple f analytic_aggregates || py_in "%" f)%bool then a
                   else if in_tuple f analytic_windows then w
                   else if in_tuple f analytic_pairs then b else o)) as Hbody
    end.
    { destruct (_ || _)%bool; [apply preserves_analytic_aggregate|].
      destruct (in_tuple f analytic_windows); [apply preserves_analytic_window|].
      destruct (in_tuple f analytic_pairs);
        [apply preserves_analytic_pair | apply preserves_analytic_other]. }
    specialize (Hbody p). unfold same_exclude in Hbody.
    match goal with
    | H : exclude_columns (?m p).2 = _ |- _ => destruct (m p) as [[e|[]] p1]
    end; cbn in Hbody.
    + intros [= <- <-]. by rewrite app_nil_r.
    + unfold excluded_helpers. cbv zeta.
      destruct (in_tuple f ["kurtosis"; "skewness"; "jb"]);
        [intros [= <- <-]; cbn; by rewrite Hbody|].
      destruct (String.eqb f "aad"); [intros [= <- <-]; cbn; by rewrite Hbody|].
      destruct (String.eqb f "mad"); [intros [= <- <-]; cbn; by rewrite Hbody|].
      intros [= <- <-]. by rewrite app_nil_r.
  - unfold vDFMATH.analytic. rewrite bind_get.
    erewrite bind_inr; [|unfold lift; by rewrite Hfmt].
    cbv zeta. rewrite Hname. cbn [negb].
    erewrite bind_inl; [|reflexivity]. intros [= <- <-]. by rewrite app_nil_r.
Qed.

End AnalyticExclude.

Lemma evalColumn_keeps_exclude e name expr :
  preserves same_exclude (evalColumn e name expr).
Proof.
  unfold evalColumn. cbv zeta.
  apply (preserves_bind same_exclude); [apply (preserves_get same_exclude)|].
  intros p0. destruct (vcolumns p0 !! quote_ident name).
  - apply preserves_apply_exclude.
  - apply (preserves_bind same_exclude); [apply (preserves_lift same_exclude)|].
    intros ct. apply (preserves_bind same_exclude); [by intros p|].
    intros a. apply (preserves_bind same_exclude); by intros p.
Qed.

(** Collaborators whose [eval] refuses the name [bad]. *)
Definition db_strict : External :=
  collaborators (fun name expr =>
    if String.eqb name "bad" then raise (Exn "QueryError" "refused")
    else evalColumn (collaborators (fun _ _ => ret tt)) name expr).

Lemma analytic_excludes_only_on_success_witness :
  exists e p',
    vDFMATH.analytic db_strict "aad" ["x"] [] [] "bad" "1" "0.5" true 7 frame_xy
    = (inl e, p')
    /\ columns p' = [q "x"; q "y"; q "x_mean_7"]
    /\ exclude_columns p' = [].
Proof.
  destruct (vDFMATH.analytic db_strict "aad" ["x"] [] [] "bad" "1" "0.5" true 7
              frame_xy) as [[e|[]] p'] eqn:Hrun; [|by vm_compute in Hrun].
  exists e, p'. split; [done|]. split.
  { vm_compute in Hrun. by injection Hrun as <- <-. }
  refine (analytic_excludes_only_on_success db_strict _ "aad" ["x"] [] [] "bad" "1"
            "0.5" true 7 frame_xy [q "x"] [] (inl e) p' eq_refl Hrun).
  intros name expr. unfold db_strict, collaborators. cbn [vdf_eval].
  destruct (String.eqb name "bad"); [by intros p|apply evalColumn_keeps_exclude].
Defined.
